(** * peerscanner: the per-host actor of host.go

    A shallow embedding of [host.go]: the host record, its DNS and
    rotation-group registration logic, the connectivity prober and the
    run loop, followed by the properties the specification states about
    them.

    Conventions.
    - A Go [error] is represented by the text of its [Error()] method; a
      nil error is [None].
    - A [*cloudflare.Record] or [*cfr.Distribution] pointer is an [option].
    - The methods of [*host] mutate the receiver and talk to process-wide
      collaborators; they become functions that take the host and the
      collaborators' state and return both, next to the Go result.
    - Calls to the logger do not influence the state; they are modelled
      only in the prober, where one property is about what is logged. *)

From Stdlib Require Import ZArith String Ascii DecimalString.
From stdpp Require Import base gmap strings list.

Local Open Scope Z_scope.

(** ** Strings and errors *)

(** Go's [strings.Contains]. *)
Fixpoint contains (s substr : string) : bool :=
  if String.prefix substr s then true
  else match s with
       | EmptyString => false
       | String _ s' => contains s' substr
       end.

(** [strings.Split(s, sep)[0]] for a one-character separator: the text
    before the first occurrence of [sep]. *)
Fixpoint firstField (sep : ascii) (s : string) : string :=
  match s with
  | EmptyString => EmptyString
  | String c s' => if Ascii.eqb c sep then EmptyString
                   else String c (firstField sep s')
  end.

(** The [%d] verb of [fmt]. *)
Definition fmt_d (z : Z) : string := NilZero.string_of_int (Z.to_int z).

Definition error := string.

(** [isDuplicateError] (host.go, end of file). The source calls it only on
    a non-nil error. *)
Definition isDuplicateError (err : error) : bool :=
  contains err "The record already exists.".

(** ** Data model *)

(** Monotonic instants; [time.Time{}] is the zero instant. *)
Definition Time := Z.
Definition zeroTime : Time := 0.

(** [cloudflare.Record]: the handle of a DNS record. host.go never looks
    inside it. *)
Record CfRecord := { Id : string; Name : string; Value : string }.

(** [cfr.Distribution]; host.go reads only [Status]. *)
Record Distribution := { InstanceId : string; Status : string }.

(** [status] *)
Record status := { online : bool; connectionRefused : bool }.

(** [group]: [newHost] builds it as [&group{subdomain: ...}]. Following the
    specification a group holds the set of its member hosts; a host is
    identified by its immutable [ip]. *)
Record group := { subdomain : string; members : gset string }.

(** [host]. The channels are the events of the run loop below and the
    proxied client is the [network] of the prober; iteration over the Go
    maps [cdnGroups] and [noCdnGroups] visits the entries in an arbitrary
    order, here the order of the list. *)
Record host := {
  name : string;
  ip : string;
  cdnRecord : option CfRecord;
  noCdnRecord : option CfRecord;
  cfrDist : option Distribution;
  cdnGroups : list (string * group);
  noCdnGroups : list (string * group);
  lastSuccess : Time;
  lastTest : Time;
  reportedHost : string
}.

Definition set_name (v : string) (h : host) : host :=
  {| name := v; ip := ip h; cdnRecord := cdnRecord h;
     noCdnRecord := noCdnRecord h; cfrDist := cfrDist h;
     cdnGroups := cdnGroups h; noCdnGroups := noCdnGroups h;
     lastSuccess := lastSuccess h; lastTest := lastTest h;
     reportedHost := reportedHost h |}.

Definition set_cdnRecord (v : option CfRecord) (h : host) : host :=
  {| name := name h; ip := ip h; cdnRecord := v;
     noCdnRecord := noCdnRecord h; cfrDist := cfrDist h;
     cdnGroups := cdnGroups h; noCdnGroups := noCdnGroups h;
     lastSuccess := lastSuccess h; lastTest := lastTest h;
     reportedHost := reportedHost h |}.

Definition set_noCdnRecord (v : option CfRecord) (h : host) : host :=
  {| name := name h; ip := ip h; cdnRecord := cdnRecord h;
     noCdnRecord := v; cfrDist := cfrDist h;
     cdnGroups := cdnGroups h; noCdnGroups := noCdnGroups h;
     lastSuccess := lastSuccess h; lastTest := lastTest h;
     reportedHost := reportedHost h |}.

Definition set_cfrDist (v : option Distribution) (h : host) : host :=
  {| name := name h; ip := ip h; cdnRecord := cdnRecord h;
     noCdnRecord := noCdnRecord h; cfrDist := v;
     cdnGroups := cdnGroups h; noCdnGroups := noCdnGroups h;
     lastSuccess := lastSuccess h; lastTest := lastTest h;
     reportedHost := reportedHost h |}.

Definition set_cdnGroups (v : list (string * group)) (h : host) : host :=
  {| name := name h; ip := ip h; cdnRecord := cdnRecord h;
     noCdnRecord := noCdnRecord h; cfrDist := cfrDist h;
     cdnGroups := v; noCdnGroups := noCdnGroups h;
     lastSuccess := lastSuccess h; lastTest := lastTest h;
     reportedHost := reportedHost h |}.

Definition set_noCdnGroups (v : list (string * group)) (h : host) : host :=
  {| name := name h; ip := ip h; cdnRecord := cdnRecord h;
     noCdnRecord := noCdnRecord h; cfrDist := cfrDist h;
     cdnGroups := cdnGroups h; noCdnGroups := v;
     lastSuccess := lastSuccess h; lastTest := lastTest h;
     reportedHost := reportedHost h |}.

Definition set_lastSuccess (v : Time) (h : host) : host :=
  {| name := name h; ip := ip h; cdnRecord := cdnRecord h;
     noCdnRecord := noCdnRecord h; cfrDist := cfrDist h;
     cdnGroups := cdnGroups h; noCdnGroups := noCdnGroups h;
     lastSuccess := v; lastTest := lastTest h;
     reportedHost := reportedHost h |}.

Definition set_lastTest (v : Time) (h : host) : host :=
  {| name := name h; ip := ip h; cdnRecord := cdnRecord h;
     noCdnRecord := noCdnRecord h; cfrDist := cfrDist h;
     cdnGroups := cdnGroups h; noCdnGroups := noCdnGroups h;
     lastSuccess := lastSuccess h; lastTest := v;
     reportedHost := reportedHost h |}.

Definition set_reportedHost (v : string) (h : host) : host :=
  {| name := name h; ip := ip h; cdnRecord := cdnRecord h;
     noCdnRecord := noCdnRecord h; cfrDist := cfrDist h;
     cdnGroups := cdnGroups h; noCdnGroups := noCdnGroups h;
     lastSuccess := lastSuccess h; lastTest := lastTest h;
     reportedHost := v |}.

(** ** Rotation groups *)

(** An error of a rotation group other than the duplicate condition: the
    specification (4.1.1, 7) tells the two apart, and [isDuplicateError] is
    how host.go does. *)
Record otherError := {
  errText : error;
  errText_other : isDuplicateError errText = false
}.

(** Modelled from the spec: [group.deregister], a method of the rotation
    group, which host.go calls but does not declare. The specification
    (4.3) describes it as an idempotent set operation keyed by host
    identity: it removes the host, a no-op when the host is absent. It has
    no result in host.go. *)
Definition group_deregister (g : group) (h : host) : group :=
  {| subdomain := subdomain g; members := members g ∖ {[ ip h ]} |}.

(** The host is a member of the rotation group. *)
Definition inRotation (h : host) (g : group) : Prop := ip h ∈ members g.

#[export] Instance inRotation_dec (h : host) (g : group) : Decision (inRotation h g) :=
  decide (ip h ∈ members g).

(** The groups the host was assigned at creation, primary and secondary. *)
Definition rotations (h : host) : list group :=
  (cdnGroups h).*2 ++ (noCdnGroups h).*2.

(** ** Process-wide collaborators

    host.go uses package-level values that other files declare: the
    CloudFlare client [cflutil], the CloudFront client [cfrutil], the flag
    [cfldomain], the constant [noCdnPrefix], the names of the rotation
    groups and the predicate [isCdnFallback]. They are taken as
    parameters; [W] is the state of the two providers. *)
Class Globals (W : Type) := {
  cfldomain : string;
  noCdnPrefix : string;
  isCdnFallback : string -> bool;
  RoundRobin : string;
  Fallbacks : string;
  Peers : string;
  RoundRobinNoCdn : string;
  FallbacksNoCdn : string;
  PeersNoCdn : string;
  (** [cflutil.Register(name, ip)] returns a record and an error. *)
  cflutil_Register : string -> string -> W -> (option CfRecord * option error) * W;
  (** [cflutil.DestroyRecord(r)] *)
  cflutil_DestroyRecord : option CfRecord -> W -> option error * W;
  (** [cfr.RefreshStatus(cfrutil, dist)] updates the distribution in place. *)
  cfr_RefreshStatus : Distribution -> W -> Distribution * W;
  (** [cfr.CreateDistribution(cfrutil, name, originDomain, comment)] *)
  cfr_CreateDistribution :
    string -> string -> string -> W -> (option Distribution * option error) * W;
  (** The error, other than the duplicate condition, with which the rotation
      group of the given subdomain refuses to add the host of the given
      address; [None] when it adds the host. *)
  group_fault : string -> string -> W -> option otherError
}.

(** ** Registering with a rotation group *)

Section Groups.
Context {W : Type} `{!Globals W}.

(** Modelled from the spec: [group.register], a method of the rotation
    group, which host.go calls but does not declare. The specification
    (4.3) describes it as an idempotent set operation keyed by host
    identity: registering a host that is already present changes nothing
    and reports the duplicate condition. Adding a host that is absent can
    fail with another error (4.1.1, 7), which leaves the group as it was;
    which calls fail is up to the environment. *)
Definition group_register (g : group) (h : host) (w : W) : group * option error :=
  if decide (ip h ∈ members g)
  then (g, Some "The record already exists.")
  else match group_fault (subdomain g) (ip h) w with
       | Some e => (g, Some (errText e))
       | None =>
         ({| subdomain := subdomain g; members := {[ ip h ]} ∪ members g |}, None)
       end.

End Groups.

(** ** The host's methods *)

Section Host.
Context {W : Type} `{!Globals W}.

(** [fmt.Sprintf("%v (%v)", h.name, h.ip)] *)
Definition String_ (h : host) : string :=
  name h +:+ " (" +:+ ip h +:+ ")".

Definition fullName (h : host) : string :=
  name h +:+ "." +:+ cfldomain.

Definition isFallback (h : host) : bool := isCdnFallback (name h).

(** [newHost]: the groups depend on the class the name has at creation. *)
Definition newHost (name0 ip0 : string) (record : option CfRecord) : host :=
  let fresh (s : string) := (s, {| subdomain := s; members := ∅ |}) in
  {| name := name0; ip := ip0; cdnRecord := record;
     noCdnRecord := None; cfrDist := None;
     cdnGroups := if isCdnFallback name0
                  then [fresh RoundRobin; fresh Fallbacks]
                  else [fresh Peers];
     noCdnGroups := if isCdnFallback name0
                    then [fresh RoundRobinNoCdn; fresh FallbacksNoCdn]
                    else [fresh PeersNoCdn];
     lastSuccess := zeroTime; lastTest := zeroTime;
     reportedHost := "" |}.

(** *** Registration *)

Definition registerCdnHost (h : host) (w : W) : option error * host * W :=
  match cdnRecord h with
  | Some _ => (None, h, w)
  | None =>
    let '((rec, err), w') := cflutil_Register (name h) (ip h) w in
    match err with
    | None => (None, set_cdnRecord rec h, w')
    | Some e =>
      if isDuplicateError e then (None, set_cdnRecord rec h, w')
      else (Some e, h, w')
    end
  end.

Definition registerNoCdnHost (h : host) (w : W) : option error * host * W :=
  match noCdnRecord h with
  | Some _ => (None, h, w)
  | None =>
    let '((rec, err), w') := cflutil_Register (noCdnPrefix +:+ name h) (ip h) w in
    match err with
    | None => (None, set_noCdnRecord rec h, w')
    | Some e =>
      if isDuplicateError e then (None, set_noCdnRecord rec h, w')
      else (Some e, h, w')
    end
  end.

(** The body shared by [registerToCdnRotations] and
    [registerToNoCdnRotations]: register with each group in turn and
    return at the first error that is not a duplicate. *)
Fixpoint registerToRotations (h : host) (gs : list (string * group)) (w : W)
  : option error * list (string * group) :=
  match gs with
  | [] => (None, [])
  | (k, g) :: rest =>
    let '(g', err) := group_register g h w in
    match err with
    | Some e =>
      if negb (isDuplicateError e) then (Some e, (k, g') :: rest)
      else let '(r, rest') := registerToRotations h rest w in (r, (k, g') :: rest')
    | None =>
      let '(r, rest') := registerToRotations h rest w in (r, (k, g') :: rest')
    end
  end.

Definition registerToCdnRotations (h : host) (w : W) : option error * host :=
  let '(err, gs) := registerToRotations h (cdnGroups h) w in
  (err, set_cdnGroups gs h).

Definition registerToNoCdnRotations (h : host) (w : W) : option error * host :=
  let '(err, gs) := registerToRotations h (noCdnGroups h) w in
  (err, set_noCdnGroups gs h).

Definition registerCdn (h : host) (w : W) : option error * host * W :=
  let '(err, h1, w1) := registerCdnHost h w in
  match err with
  | Some e => (Some ("Unable to register host: " +:+ e), h1, w1)
  | None =>
    let '(err, h2) := registerToCdnRotations h1 w1 in
    match err with
    | Some e => (Some ("Unable to register rotations: " +:+ e), h2, w1)
    | None => (None, h2, w1)
    end
  end.

Definition registerNoCdn (h : host) (w : W) : option error * host * W :=
  let '(err, h1, w1) := registerNoCdnHost h w in
  match err with
  | Some e => (Some ("Unable to register no-CDN entry for host: " +:+ e), h1, w1)
  | None =>
    let '(err, h2) := registerToNoCdnRotations h1 w1 in
    match err with
    | Some e => (Some ("Unable to register no-CDN rotations: " +:+ e), h2, w1)
    | None => (None, h2, w1)
    end
  end.

(** [h.cfrDist != nil && h.cfrDist.Status == "Deployed"] *)
Definition deployed (h : host) : bool :=
  match cfrDist h with
  | Some d => String.eqb (Status d) "Deployed"
  | None => false
  end.

Definition register (h : host) (w : W) : option error * host * W :=
  let '(err, h1, w1) := registerCdn h w in
  match err with
  | Some e => (Some e, h1, w1)
  | None => if deployed h1 then registerNoCdn h1 w1 else (None, h1, w1)
  end.

(** *** Deregistration *)

Definition doDeregisterCdnHost (h : host) (w : W) : host * W :=
  let '(err, w') := cflutil_DestroyRecord (cdnRecord h) w in
  match err with
  | Some _ => (h, w')
  | None => (set_cdnRecord None h, w')
  end.

Definition doDeregisterNoCdnHost (h : host) (w : W) : host * W :=
  let '(err, w') := cflutil_DestroyRecord (noCdnRecord h) w in
  match err with
  | Some _ => (h, w')
  | None => (set_noCdnRecord None h, w')
  end.

Definition deregisterCdnHost (h : host) (w : W) : host * W :=
  match cdnRecord h with
  | None => (h, w)
  | Some _ => if isFallback h then (h, w) else doDeregisterCdnHost h w
  end.

Definition deregisterNoCdnHost (h : host) (w : W) : host * W :=
  match noCdnRecord h with
  | None => (h, w)
  | Some _ => if isFallback h then (h, w) else doDeregisterNoCdnHost h w
  end.

Definition deregisterGroups (h : host) (gs : list (string * group))
  : list (string * group) :=
  map (fun kg => (kg.1, group_deregister kg.2 h)) gs.

Definition deregisterFromRotations (h : host) : host :=
  let h1 := set_cdnGroups (deregisterGroups h (cdnGroups h)) h in
  set_noCdnGroups (deregisterGroups h1 (noCdnGroups h1)) h1.

Definition deregister (h : host) (w : W) : host * W :=
  let '(h1, w1) := deregisterCdnHost h w in
  let '(h2, w2) := deregisterNoCdnHost h1 w1 in
  (deregisterFromRotations h2, w2).

(** *** Reset and the secondary distribution *)

(** [doReset]; [now] is the reading of [time.Now()]. *)
Definition doReset (newName : string) (now : Time) (h : host) (w : W) : host * W :=
  let h1 := set_lastTest zeroTime (set_lastSuccess now h) in
  if negb (String.eqb newName (name h1)) then
    let '(h2, w2) :=
      match cdnRecord h1 with
      | Some _ =>
        let '(h', w') := doDeregisterCdnHost h1 w in
        doDeregisterNoCdnHost h' w'
      | None => (h1, w)
      end in
    (set_name newName h2, w2)
  else (h1, w).

Definition doInitCfrDist (h : host) (w : W) : host * W :=
  let '(h1, w1) :=
    match cfrDist h with
    | Some d =>
      if String.eqb (Status d) "InProgress"
      then let '(d', w') := cfr_RefreshStatus d w in (set_cfrDist (Some d') h, w')
      else (h, w)
    | None => (h, w)
    end in
  match cfrDist h1 with
  | Some _ => (h1, w1)
  | None =>
    let subdomain := firstField "."%char (name h1) in
    let '((dist, err), w2) :=
      cfr_CreateDistribution subdomain (noCdnPrefix +:+ name h1)
                             "created by peerscanner" w1 in
    match err with
    | None => (set_cfrDist dist h1, w2)
    | Some _ => (h1, w2)
    end
  end.

End Host.

(** ** The connectivity prober *)

Definition proxyAttempts : nat := 1.

Definition testSites : list string :=
  ["www.google.com"; "www.youtube.com"; "www.facebook.com"].

(** The outcome of [h.proxiedClient.Head(url)]: an error or a response
    with its status code. *)
Inductive headResult :=
| HeadError (err : error)
| HeadResponse (StatusCode : Z).

(** What the network does during one attempt.
    - [DialTimeout addr] is [net.DialTimeout("tcp", addr, dialTimeout)],
      with the error if the dial fails;
    - [randIntn] is the number drawn by [rand.Intn];
    - [Head url] is the proxied request, together with the virtual host
      that the [OnFirstResponse] hook of the tunnel stores in
      [h.reportedHost] while the request runs ([None] when the hook does
      not fire). *)
Record network := {
  DialTimeout : string -> option error;
  randIntn : nat;
  Head : string -> headResult * option string
}.

Inductive logEntry :=
| LogDebug (msg : string)
| LogError (msg : string).

Section Prober.
Context {W : Type} `{!Globals W}.

Definition doIsAbleToProxy (h : host) (n : network)
  : (bool * bool * option error) * host :=
  let addr := ip h +:+ ":443" in
  match DialTimeout n addr with
  | Some err =>
    let err2 := "Unable to connect to " +:+ addr +:+ ": " +:+ err in
    ((false, contains err "connection refused", Some err2), h)
  | None =>
    let site := nth (randIntn n mod length testSites)%nat testSites "" in
    let '(resp, reported) := Head n ("http://" +:+ site) in
    let h1 := match reported with
              | Some v => set_reportedHost v h
              | None => h
              end in
    match resp with
    | HeadError err =>
      ((false, false,
        Some ("Unable to make proxied HEAD request to " +:+ site +:+ ": " +:+ err)),
       h1)
    | HeadResponse code =>
      if negb (code =? 200) && negb (code =? 301) then
        let err2 := "Proxying to " +:+ site +:+ " via " +:+ ip h
                    +:+ " returned unexpected status " +:+ fmt_d code +:+ "," in
        ((false, false, Some err2), h1)
      else ((true, false, None), h1)
    end
  end.

(** The loop of [isAbleToProxy] with [n] attempts left; [i] counts the
    attempts made and [net i] is the network during attempt [i]. The
    inner [lastErr :=] of the source declares a new variable, which is
    logged and goes out of scope: the function returns the outer
    [lastErr]. *)
Fixpoint isAbleToProxy_loop (n i : nat) (lastErr : option error)
         (net : nat -> network) (h : host) (log : list logEntry)
  : (bool * bool * option error) * host * list logEntry :=
  match n with
  | O => ((false, false, lastErr), h, log)
  | S n' =>
    let '((success, refused, err), h1) := doIsAbleToProxy h (net i) in
    let log1 := match err with
                | Some e => log ++ [LogDebug ("Error testing " +:+ String_ h1 +:+ ": " +:+ e)]
                | None => log
                end in
    let lastErr := err in
    if success || refused then
      if success then
        if negb (String.eqb (reportedHost h1) (fullName h1)) then
          let lastErr' := String_ h1 +:+ " is reporting an unexpected host "
                          +:+ reportedHost h1 in
          ((false, refused, lastErr), h1, log1 ++ [LogError lastErr'])
        else ((success, refused, lastErr), h1, log1)
      else ((success, refused, lastErr), h1, log1)
    else isAbleToProxy_loop n' (S i) lastErr net h1 log1
  end.

Definition isAbleToProxy (net : nat -> network) (h : host)
  : (bool * bool * option error) * host * list logEntry :=
  isAbleToProxy_loop proxyAttempts 0 None net h [].

End Prober.

(** ** The run loop *)

(** What the [select] statements of [run] and [pause] receive. The timers
    are not modelled: which case fires, and when, is up to the
    environment.
    - [EvReset newName now]: a name from [resetCh], handled at time [now];
    - [EvUnregister]: a signal from [unregisterCh];
    - [EvInitCfr]: a signal from [initCfrCh];
    - [EvPauseTimer]: the pause deadline;
    - [EvPeriodTimer net timedOut tTest tSuccess]: the rate-limit timer; the
      test runs against [net], [timedOut] tells whether [withtimeout.Do] gave
      up on it, and the two instants are the readings of [time.Now()]. *)
Inductive event :=
| EvReset (newName : string) (now : Time)
| EvUnregister
| EvInitCfr
| EvPauseTimer
| EvPeriodTimer (net : nat -> network) (timedOut : bool) (tTest tSuccess : Time).

(** [Active]: the loop of [run] is at its [select]; [Paused]: the loop of
    [pause] is at its [select]. *)
Inductive phase := Active | Paused.

Record actor := {
  self : host;
  mode : phase;
  checkImmediately : bool
}.

Section Run.
Context {W : Type} `{!Globals W}.

(** The statements of [run] before its loop; [now] and [now'] are the two
    readings of [time.Now()]. *)
Definition start (h : host) (now now' : Time) : actor :=
  {| self := set_lastTest now' (set_lastSuccess now h);
     mode := Active; checkImmediately := true |}.

(** The entry action of [pause]: [h.deregister()]; the loop of [pause]
    then waits for a reset. *)
Definition pauseEntry (a : actor) (w : W) : actor * W :=
  let '(h', w') := deregister (self a) w in
  ({| self := h'; mode := Paused; checkImmediately := checkImmediately a |}, w').

(** The [periodTimer] case of [run]. When [withtimeout.Do] gives up its
    result is nil and the status is [{false, false}]; the abandoned probe
    keeps running and its write to [reportedHost] is taken as done. The
    status is the one handed to [reportStatus]. *)
Definition testCycle (net : nat -> network) (timedOut : bool)
           (tTest tSuccess : Time) (h : host) (w : W)
  : status * host * W :=
  let '((on, refused, _), h1, _) := isAbleToProxy net h in
  let s := if timedOut then {| online := false; connectionRefused := false |}
           else {| online := on; connectionRefused := refused |} in
  let h2 := set_lastTest tTest h1 in
  if online s then
    let '(_, h3, w3) := register (set_lastSuccess tSuccess h2) w in
    (s, h3, w3)
  else (s, deregisterFromRotations h2, w).

(** One turn of the actor. In [pause] only [resetCh] and [unregisterCh]
    are read; the other events are not received there ([None]). The
    second component is the status reported to waiting callers, if the
    turn ran a test. *)
Definition step (e : event) (a : actor) (w : W)
  : option (actor * option status * W) :=
  match mode a, e with
  | Active, EvReset newName now =>
    let '(h', w') := doReset newName now (self a) w in
    Some ({| self := h'; mode := Active; checkImmediately := checkImmediately a |},
          None, w')
  | Active, EvUnregister | Active, EvPauseTimer =>
    let '(a', w') := pauseEntry a w in Some (a', None, w')
  | Active, EvInitCfr =>
    let '(h', w') := doInitCfrDist (self a) w in
    Some ({| self := h'; mode := Active; checkImmediately := checkImmediately a |},
          None, w')
  | Active, EvPeriodTimer net timedOut tTest tSuccess =>
    let '(s, h', w') := testCycle net timedOut tTest tSuccess (self a) w in
    Some ({| self := h'; mode := Active; checkImmediately := false |}, Some s, w')
  | Paused, EvReset newName now =>
    let '(h', w') := doReset newName now (self a) w in
    Some ({| self := h'; mode := Active; checkImmediately := true |}, None, w')
  | Paused, EvUnregister => Some (a, None, w)
  | Paused, _ => None
  end.

(** A run of the actor: the states it goes through, latest first. *)
Inductive runs (h0 : host) : list (actor * W) -> Prop :=
| runs_start now now' w0 : runs h0 [(start h0 now now', w0)]
| runs_step e a w a' s w' tr :
    runs h0 ((a, w) :: tr) ->
    step e a w = Some (a', s, w') ->
    runs h0 ((a', w') :: (a, w) :: tr).

(** The states the actor goes through, latest first, when it receives
    the events [es] after the states [tr]; it stops at an event that the
    current [select] does not receive. *)
Fixpoint exec (es : list event) (tr : list (actor * W)) : list (actor * W) :=
  match es, tr with
  | e :: es', (a, w) :: _ =>
    match step e a w with
    | Some (a', _, w') => exec es' ((a', w') :: tr)
    | None => tr
    end
  | _, _ => tr
  end.

End Run.

(** ** Vocabulary of the properties *)

Section Vocabulary.
Context {W : Type} `{!Globals W}.

(** The host keeps its DNS records and the provider is not called. *)
Definition keepsRecords (h : host) (w : W) (h' : host) (w' : W) : Prop :=
  cdnRecord h' = cdnRecord h ∧ noCdnRecord h' = noCdnRecord h ∧ w' = w.

(** Each DNS record the host holds is handed to the provider's
    [DestroyRecord], the primary one first; a field is nil afterwards when
    its call returned no error and keeps the record when it returned one.
    [w1] is the provider's state between the two calls. *)
Definition destroysRecords (h : host) (w : W) (h' : host) (w' : W) : Prop :=
  ∃ w1,
    match cdnRecord h with
    | None => cdnRecord h' = None ∧ w1 = w
    | Some r =>
      w1 = (cflutil_DestroyRecord (Some r) w).2
      ∧ ((cflutil_DestroyRecord (Some r) w).1 = None -> cdnRecord h' = None)
      ∧ (is_Some (cflutil_DestroyRecord (Some r) w).1 -> cdnRecord h' = Some r)
    end
    ∧ match noCdnRecord h with
      | None => noCdnRecord h' = None ∧ w' = w1
      | Some r =>
        w' = (cflutil_DestroyRecord (Some r) w1).2
        ∧ ((cflutil_DestroyRecord (Some r) w1).1 = None -> noCdnRecord h' = None)
        ∧ (is_Some (cflutil_DestroyRecord (Some r) w1).1 -> noCdnRecord h' = Some r)
      end.

(** The fields that the destruction of a DNS record leaves alone. *)
Definition sameButRecords (h h' : host) : Prop :=
  name h' = name h ∧ ip h' = ip h
  ∧ cdnGroups h' = cdnGroups h ∧ noCdnGroups h' = noCdnGroups h
  ∧ cfrDist h' = cfrDist h.

(** The three results of [doIsAbleToProxy] and [isAbleToProxy]. *)
Definition p_success (r : bool * bool * option error) : bool := r.1.1.
Definition p_refused (r : bool * bool * option error) : bool := r.1.2.
Definition p_err (r : bool * bool * option error) : option error := r.2.

(** The site the attempt requests. *)
Definition chosenSite (n : network) : string :=
  nth (randIntn n mod length testSites)%nat testSites "".

(** The proxied request of the attempt is answered with [code]. *)
Definition answered (h : host) (n : network) (code : Z) : Prop :=
  DialTimeout n (ip h +:+ ":443") = None
  ∧ (Head n ("http://" +:+ chosenSite n)).1 = HeadResponse code.

(** The error that [isAbleToProxy] builds when the reported virtual host
    is not the expected one. *)
Definition mismatchError (h : host) : error :=
  String_ h +:+ " is reporting an unexpected host " +:+ reportedHost h.

(** The host is a member of all its primary, resp. secondary, groups. *)
Definition inCdnRotations (h : host) : Prop :=
  ∀ g, g ∈ (cdnGroups h).*2 -> inRotation h g.

Definition inNoCdnRotations (h : host) : Prop :=
  ∀ g, g ∈ (noCdnGroups h).*2 -> inRotation h g.

(** What the primary registration leaves alone. *)
Definition sameButCdn (h h' : host) : Prop :=
  name h' = name h ∧ ip h' = ip h ∧ cfrDist h' = cfrDist h
  ∧ noCdnRecord h' = noCdnRecord h ∧ noCdnGroups h' = noCdnGroups h.

(** What the secondary registration leaves alone. *)
Definition sameButNoCdn (h h' : host) : Prop :=
  name h' = name h ∧ ip h' = ip h ∧ cfrDist h' = cfrDist h
  ∧ cdnRecord h' = cdnRecord h ∧ cdnGroups h' = cdnGroups h.

(** The provider answers a create call for name [n] with the duplicate
    condition, returns no record and keeps its state. *)
Definition reportsDuplicate (n : string) (h : host) (w : W) : Prop :=
  ∃ e, cflutil_Register n (ip h) w = ((None, Some e), w)
     ∧ isDuplicateError e = true.

(** An attempt that neither succeeds nor is refused. *)
Definition undecided (h : host) (n : network) : Prop :=
  p_success (doIsAbleToProxy h n).1 = false
  ∧ p_refused (doIsAbleToProxy h n).1 = false.

(** The address that [doIsAbleToProxy] dials. *)
Definition dialAddr (h : host) : string := ip h +:+ ":443".

(** The error of an attempt whose dial failed with [err]. *)
Definition dialError (h : host) (err : error) : error :=
  "Unable to connect to " +:+ dialAddr h +:+ ": " +:+ err.

End Vocabulary.

(** ** A reference environment

    The providers are external services. To evaluate the definitions on
    concrete inputs we use providers that behave as section 6 of the
    specification describes them: creating a record under a name that is
    taken reports the duplicate condition and returns no record, destroying
    removes the record, and while the provider is [down] every call fails
    with another error, and so does a rotation group that is asked to add
    a host. *)

Record cloud := {
  zone : gmap string string;
  down : bool;
  provisioned : string
}.

Definition cloud_Register (n i : string) (c : cloud)
  : (option CfRecord * option error) * cloud :=
  if down c then ((None, Some "cloudflare: service unavailable"), c)
  else match zone c !! n with
       | Some _ => ((None, Some "The record already exists."), c)
       | None =>
         ((Some {| Id := n; Name := n; Value := i |}, None),
          {| zone := <[n := i]> (zone c); down := down c;
             provisioned := provisioned c |})
       end.

Definition cloud_DestroyRecord (r : option CfRecord) (c : cloud)
  : option error * cloud :=
  match r with
  | None => (Some "cloudflare: no record given", c)
  | Some r =>
    if down c then (Some "cloudflare: service unavailable", c)
    else (None, {| zone := delete (Name r) (zone c); down := down c;
                   provisioned := provisioned c |})
  end.

Definition cloud_RefreshStatus (d : Distribution) (c : cloud)
  : Distribution * cloud :=
  ({| InstanceId := InstanceId d; Status := provisioned c |}, c).

Definition cloud_CreateDistribution (n origin comment : string) (c : cloud)
  : (option Distribution * option error) * cloud :=
  if down c then ((None, Some "cloudfront: service unavailable"), c)
  else ((Some {| InstanceId := n; Status := "InProgress" |}, None), c).

Definition cloud_group_fault (sub i : string) (c : cloud) : option otherError :=
  if down c
  then Some {| errText := "cloudflare: service unavailable";
               errText_other := eq_refl |}
  else None.

#[export] Instance cloudGlobals : Globals cloud := {|
  cfldomain := "getiantem.org";
  noCdnPrefix := "nocdn-";
  isCdnFallback := String.prefix "fl-";
  RoundRobin := "roundrobin";
  Fallbacks := "fallbacks";
  Peers := "peers";
  RoundRobinNoCdn := "nocdn-roundrobin";
  FallbacksNoCdn := "nocdn-fallbacks";
  PeersNoCdn := "nocdn-peers";
  cflutil_Register := cloud_Register;
  cflutil_DestroyRecord := cloud_DestroyRecord;
  cfr_RefreshStatus := cloud_RefreshStatus;
  cfr_CreateDistribution := cloud_CreateDistribution;
  group_fault := cloud_group_fault
|}.

Definition emptyCloud : cloud :=
  {| zone := ∅; down := false; provisioned := "Deployed" |}.

(** A network on which the dial succeeds, the proxied request is answered
    with [code] and the tunnel reports the virtual host [vhost]. *)
Definition answering (code : Z) (vhost : string) : network :=
  {| DialTimeout := fun _ => None;
     randIntn := 0;
     Head := fun _ => (HeadResponse code, Some vhost) |}.

(** A network on which the dial fails with [err]. *)
Definition failing (err : error) : network :=
  {| DialTimeout := fun _ => Some err;
     randIntn := 0;
     Head := fun _ => (HeadError "unreachable", None) |}.

(** The peer "p1" of the specification's scenarios after a successful
    test: registered under its name and member of the peer rotations. *)
Definition p1_registered : host * cloud :=
  let '(_, h, c) := register (newHost "p1" "1.2.3.4" None) emptyCloud in (h, c).

(** The fallback "fl-1" after a successful test. *)
Definition fl1_registered : host * cloud :=
  let '(_, h, c) := register (newHost "fl-1" "5.6.7.8" None) emptyCloud in (h, c).

Definition p1 : host := p1_registered.1.
Definition p1_cloud : cloud := p1_registered.2.
Definition fl1 : host := fl1_registered.1.
Definition fl1_cloud : cloud := fl1_registered.2.

Definition downCloud : cloud :=
  {| zone := ∅; down := true; provisioned := "Deployed" |}.

(** A new peer whose distribution is deployed. *)
Definition p1_deployed : host :=
  set_cfrDist (Some {| InstanceId := "p1"; Status := "Deployed" |})
              (newHost "p1" "1.2.3.4" None).

(** A peer that holds a secondary record but no primary one. *)
Definition p1_secondary_only : host :=
  set_noCdnRecord
    (Some {| Id := "nocdn-p1"; Name := "nocdn-p1"; Value := "1.2.3.4" |})
    (newHost "p1" "1.2.3.4" None).

(** A run of the peer "p1": its distribution is created, found deployed
    at the next refresh, and a successful test registers the host. *)
Definition p1_run : list (actor * cloud) :=
  exec [EvInitCfr; EvInitCfr;
        EvPeriodTimer (fun _ => answering 200 "p1.getiantem.org") false 8 9]
       [(start (newHost "p1" "1.2.3.4" None) 1 2, emptyCloud)].

Definition active (h : host) : actor :=
  {| self := h; mode := Active; checkImmediately := false |}.

(** The registered peer "p1" after a failed test: it holds its record and
    is out of its rotations. *)
Definition p1_out : host := deregisterFromRotations p1.

Definition paused (h : host) : actor :=
  {| self := h; mode := Paused; checkImmediately := false |}.

(** A network whose first attempt is answered with status 404 and whose
    later attempts are refused. *)
Definition refusedLater (j : nat) : network :=
  match j with
  | O => answering 404 "p1.getiantem.org"
  | S _ => failing "dial tcp 1.2.3.4:443: connection refused"
  end.

(** A run of the peer "p1": a successful test, then an unregister signal. *)
Definition p1_unregistered_run : list (actor * cloud) :=
  exec [EvPeriodTimer (fun _ => answering 200 "p1.getiantem.org") false 8 9;
        EvUnregister]
       [(start (newHost "p1" "1.2.3.4" None) 1 2, emptyCloud)].

(** * Properties *)

(** ** Rotation groups *)

Lemma group_deregister_not_member (g : group) (h : host) :
  ¬ inRotation h (group_deregister g h).
Proof.
  unfold inRotation, group_deregister; simpl.
  rewrite elem_of_difference, elem_of_singleton.
  intros [_ Hne]. now apply Hne.
Qed.

Section Rotations.
Context {W : Type} `{!Globals W}.

Lemma deregisterGroups_keys (h : host) (gs : list (string * group)) :
  (deregisterGroups h gs).*1 = gs.*1.
Proof.
  induction gs as [|[k g] gs IH]; [reflexivity|].
  cbn. f_equal. exact IH.
Qed.

Lemma deregisterGroups_not_member (h h' : host) (gs : list (string * group)) (g : group) :
  ip h' = ip h ->
  g ∈ (deregisterGroups h gs).*2 -> ¬ inRotation h' g.
Proof.
  intros Hip. unfold inRotation. rewrite Hip.
  induction gs as [|[k g0] gs IH]; simpl.
  - intros Hin. inversion Hin.
  - intros Hin. apply elem_of_cons in Hin as [-> | Hin].
    + apply group_deregister_not_member.
    + now apply IH.
Qed.

Lemma deregisterFromRotations_not_member (h : host) (g : group) :
  g ∈ rotations (deregisterFromRotations h) ->
  ¬ inRotation (deregisterFromRotations h) g.
Proof.
  unfold rotations, deregisterFromRotations; simpl.
  intros Hin. apply elem_of_app in Hin as [Hin | Hin];
    eapply deregisterGroups_not_member; try exact Hin; reflexivity.
Qed.

Lemma group_register_member (g : group) (h : host) (w : W) :
  (group_register g h w).2 = None -> inRotation h (group_register g h w).1.
Proof.
  unfold inRotation, group_register.
  destruct (decide (ip h ∈ members g)); [discriminate|].
  destruct (group_fault _ _ w); [discriminate|].
  intros _. simpl. set_solver.
Qed.

Lemma group_register_duplicate (g : group) (h : host) (w : W) :
  inRotation h g ->
  group_register g h w = (g, Some "The record already exists.").
Proof.
  unfold inRotation, group_register. intros Hin.
  destruct (decide (ip h ∈ members g)); [reflexivity | contradiction].
Qed.

(** A group that reports the duplicate condition holds the host. *)
Lemma group_register_error (g : group) (h : host) (w : W) (e : error) :
  (group_register g h w).2 = Some e -> isDuplicateError e = true ->
  inRotation h (group_register g h w).1.
Proof.
  unfold inRotation, group_register.
  destruct (decide (ip h ∈ members g)) as [Hin|]; [intros _ _; exact Hin|].
  destruct (group_fault _ _ w) as [o|]; [|discriminate].
  simpl. intros [= <-] Hdup. rewrite (errText_other o) in Hdup. discriminate.
Qed.

(** The loop keeps the keys of the map; when it returns no error the host
    is a member of every group, and an error it returns is never a
    duplicate. *)
Lemma registerToRotations_ok (h : host) (gs : list (string * group)) (w : W) :
  (registerToRotations h gs w).2.*1 = gs.*1
  ∧ ((registerToRotations h gs w).1 = None ->
     ∀ g, g ∈ (registerToRotations h gs w).2.*2 -> inRotation h g)
  ∧ (∀ e, (registerToRotations h gs w).1 = Some e -> isDuplicateError e = false).
Proof.
  induction gs as [|[k g] gs (IH1 & IH2 & IH3)]; simpl.
  - repeat split; [intros _ g Hin; inversion Hin | discriminate].
  - pose proof (group_register_member g h w) as Hm.
    pose proof (group_register_error g h w) as He.
    destruct (group_register g h w) as [g' err]; simpl in *.
    destruct (registerToRotations h gs w) as [r rest] eqn:Er; simpl in *.
    destruct err as [e|].
    + destruct (isDuplicateError e) eqn:Hdup; simpl.
      * split; [f_equal; exact IH1 | split; [|exact IH3]].
        intros Hr g0 Hin. apply elem_of_cons in Hin as [-> | Hin];
          [now apply (He e) | now apply IH2].
      * split; [reflexivity | split; [discriminate|]].
        now intros e' [= <-].
    + simpl. split; [f_equal; exact IH1 | split; [|exact IH3]].
      intros Hr g0 Hin. apply elem_of_cons in Hin as [-> | Hin];
        [now apply Hm | now apply IH2].
Qed.

Lemma registerToRotations_members (h : host) (gs : list (string * group)) (w : W) :
  (∀ g, g ∈ gs.*2 -> inRotation h g) ->
  registerToRotations h gs w = (None, gs).
Proof.
  induction gs as [|[k g] gs IH]; simpl; intros Hall; [reflexivity|].
  rewrite group_register_duplicate by (apply Hall; left).
  simpl. rewrite IH; [reflexivity|].
  intros g0 Hin. apply Hall. now right.
Qed.

End Rotations.

(** ** Deregistration *)

Section Deregistration.
Context {W : Type} `{!Globals W}.

Lemma deregisterFromRotations_frame (h : host) :
  name (deregisterFromRotations h) = name h
  ∧ ip (deregisterFromRotations h) = ip h
  ∧ cdnRecord (deregisterFromRotations h) = cdnRecord h
  ∧ noCdnRecord (deregisterFromRotations h) = noCdnRecord h
  ∧ cfrDist (deregisterFromRotations h) = cfrDist h.
Proof. repeat split. Qed.

Lemma doDeregisterCdnHost_frame (h : host) (w : W) :
  sameButRecords h (doDeregisterCdnHost h w).1
  ∧ noCdnRecord (doDeregisterCdnHost h w).1 = noCdnRecord h.
Proof.
  unfold doDeregisterCdnHost, sameButRecords.
  destruct (cflutil_DestroyRecord (cdnRecord h) w) as [[e|] w1]; simpl; tauto.
Qed.

Lemma doDeregisterNoCdnHost_frame (h : host) (w : W) :
  sameButRecords h (doDeregisterNoCdnHost h w).1
  ∧ cdnRecord (doDeregisterNoCdnHost h w).1 = cdnRecord h.
Proof.
  unfold doDeregisterNoCdnHost, sameButRecords.
  destruct (cflutil_DestroyRecord (noCdnRecord h) w) as [[e|] w1]; simpl; tauto.
Qed.

Lemma deregisterCdnHost_frame (h : host) (w : W) :
  sameButRecords h (deregisterCdnHost h w).1.
Proof.
  unfold deregisterCdnHost.
  destruct (cdnRecord h), (isFallback h);
    try apply doDeregisterCdnHost_frame; repeat split.
Qed.

Lemma deregisterNoCdnHost_frame (h : host) (w : W) :
  sameButRecords h (deregisterNoCdnHost h w).1.
Proof.
  unfold deregisterNoCdnHost.
  destruct (noCdnRecord h), (isFallback h);
    try apply doDeregisterNoCdnHost_frame; repeat split.
Qed.

Lemma deregister_fallback (h : host) (w : W) :
  isFallback h = true ->
  deregister h w = (deregisterFromRotations h, w).
Proof.
  intros Hfb. unfold deregister, deregisterCdnHost, deregisterNoCdnHost.
  rewrite Hfb.
  destruct (cdnRecord h), (noCdnRecord h); simpl; rewrite ?Hfb; reflexivity.
Qed.

(** Closes the cases of [destroysRecords]: an implication whose premise
    contradicts the provider's answer, or whose conclusion is at hand. *)
Ltac solve_destroyed :=
  try assumption; try reflexivity;
  try (intros Herr; first [ discriminate Herr
                          | destruct Herr as [? Herr]; discriminate Herr
                          | assumption | reflexivity ]).

Lemma deregister_peer (h : host) (w : W) :
  isFallback h = false ->
  destroysRecords h w (deregister h w).1 (deregister h w).2.
Proof.
  intros Hpeer. unfold destroysRecords, deregister, deregisterCdnHost.
  rewrite Hpeer.
  destruct (cdnRecord h) as [r|] eqn:Hr.
  - unfold doDeregisterCdnHost. rewrite Hr.
    exists (cflutil_DestroyRecord (Some r) w).2.
    destruct (cflutil_DestroyRecord (Some r) w) as [[e|] w1]; simpl;
      unfold deregisterNoCdnHost, isFallback; simpl;
      fold (isFallback h); rewrite Hpeer;
      (destruct (noCdnRecord h) as [r'|] eqn:Hr';
       [ unfold doDeregisterNoCdnHost; simpl; rewrite Hr';
         destruct (cflutil_DestroyRecord (Some r') w1) as [[e'|] w2]; simpl
       | simpl ]);
      repeat split; solve_destroyed.
  - exists w.
    unfold deregisterNoCdnHost. rewrite Hpeer.
    destruct (noCdnRecord h) as [r'|] eqn:Hr'.
    + unfold doDeregisterNoCdnHost. rewrite Hr'.
      destruct (cflutil_DestroyRecord (Some r') w) as [[e'|] w2]; simpl;
        repeat split; solve_destroyed.
    + simpl. repeat split; solve_destroyed.
Qed.

Lemma deregister_effects (h : host) (w : W) :
  (∀ g, g ∈ rotations (deregister h w).1 -> ¬ inRotation (deregister h w).1 g)
  ∧ (isFallback h = false ->
     destroysRecords h w (deregister h w).1 (deregister h w).2)
  ∧ (isFallback h = true ->
     keepsRecords h w (deregister h w).1 (deregister h w).2).
Proof.
  split; [|split].
  - intros g. unfold deregister.
    destruct (deregisterCdnHost h w) as [h1 w1].
    destruct (deregisterNoCdnHost h1 w1) as [h2 w2]. simpl.
    apply deregisterFromRotations_not_member.
  - apply deregister_peer.
  - intros Hfb. rewrite deregister_fallback by exact Hfb.
    repeat split.
Qed.

(** C3. [deregister] removes the host from every rotation group it was
    assigned, primary and secondary. For a peer-class host it hands the
    primary and the secondary DNS record to the provider for destruction
    and clears each field whose call succeeds; for a fallback-class host
    it skips the destruction entirely: both record fields keep their
    value and the provider is not called. *)
Theorem deregister_by_class (h : host) (w : W) :
  let h' := (deregister h w).1 in
  let w' := (deregister h w).2 in
  (∀ g, g ∈ rotations h' -> ¬ inRotation h' g)
  ∧ (cdnGroups h').*1 = (cdnGroups h).*1
  ∧ (noCdnGroups h').*1 = (noCdnGroups h).*1
  ∧ (isFallback h = false -> destroysRecords h w h' w')
  ∧ (isFallback h = true -> keepsRecords h w h' w').
Proof.
  cbv zeta.
  pose proof (deregister_effects h w) as (Hrot & Hpeer & Hfb).
  split; [exact Hrot | split; [|split; [|split; assumption]]].
  - unfold deregister.
    pose proof (deregisterCdnHost_frame h w) as (_ & _ & Hc & _).
    destruct (deregisterCdnHost h w) as [h1 w1].
    pose proof (deregisterNoCdnHost_frame h1 w1) as (_ & _ & Hc' & _).
    destruct (deregisterNoCdnHost h1 w1) as [h2 w2]. simpl in *.
    rewrite <- Hc, <- Hc'. apply deregisterGroups_keys.
  - unfold deregister.
    pose proof (deregisterCdnHost_frame h w) as (_ & _ & _ & Hn & _).
    destruct (deregisterCdnHost h w) as [h1 w1].
    pose proof (deregisterNoCdnHost_frame h1 w1) as (_ & _ & _ & Hn' & _).
    destruct (deregisterNoCdnHost h1 w1) as [h2 w2]. simpl in *.
    rewrite <- Hn, <- Hn'. apply deregisterGroups_keys.
Qed.

End Deregistration.

(** ** The prober *)

Section ProberProperties.
Context {W : Type} `{!Globals W}.

Lemma doIsAbleToProxy_host (h : host) (n : network) :
  ∃ v, (doIsAbleToProxy h n).2 = set_reportedHost v h.
Proof.
  unfold doIsAbleToProxy.
  destruct (DialTimeout n (ip h +:+ ":443")) as [e|].
  - exists (reportedHost h). now destruct h.
  - destruct (Head n _) as [resp [v|]].
    + exists v. destruct resp as [e|code]; [reflexivity|].
      now destruct (negb (code =? 200) && negb (code =? 301)).
    + exists (reportedHost h).
      destruct resp as [e|code];
        [|destruct (negb (code =? 200) && negb (code =? 301))];
        now destruct h.
Qed.

Lemma isAbleToProxy_loop_host (n i : nat) (lastErr : option error)
      (net : nat -> network) (h : host) (log : list logEntry) :
  ∃ v, (isAbleToProxy_loop n i lastErr net h log).1.2 = set_reportedHost v h.
Proof.
  revert i lastErr h log.
  induction n as [|n IH]; intros i lastErr h log; simpl.
  - exists (reportedHost h). now destruct h.
  - destruct (doIsAbleToProxy_host h (net i)) as [v Hv].
    destruct (doIsAbleToProxy h (net i)) as [[[success refused] err] h1].
    simpl in Hv. subst h1.
    destruct (success || refused).
    + exists v.
      destruct success; [|reflexivity].
      now destruct (negb _).
    + match goal with
      | |- context [isAbleToProxy_loop n ?i' ?e net ?h' ?l] =>
        destruct (IH i' e h' l) as [v' Hv']
      end.
      exists v'. rewrite Hv'. reflexivity.
Qed.

Lemma isAbleToProxy_host (net : nat -> network) (h : host) :
  ∃ v, (isAbleToProxy net h).1.2 = set_reportedHost v h.
Proof. apply isAbleToProxy_loop_host. Qed.

Lemma doIsAbleToProxy_answered (h : host) (n : network) (code : Z) :
  answered h n code ->
  (doIsAbleToProxy h n).1
  = if negb (code =? 200) && negb (code =? 301)
    then (false, false,
          Some ("Proxying to " +:+ chosenSite n +:+ " via " +:+ ip h
                +:+ " returned unexpected status " +:+ fmt_d code +:+ ","))
    else (true, false, None).
Proof.
  intros [Hdial Hhead]. unfold doIsAbleToProxy. rewrite Hdial.
  fold (chosenSite n).
  destruct (Head n ("http://" +:+ chosenSite n)) as [resp rep].
  simpl in Hhead. subst resp.
  now destruct (negb (code =? 200) && negb (code =? 301)).
Qed.

(** C7. One attempt succeeds only when the dial succeeded and the proxied
    HEAD request was answered with status 200 or 301; an answer with any
    other status is a failure that is not a refusal; and the attempt
    reports a refused connection exactly when the dial to [ip:443] failed
    with an error whose text says so. *)
Theorem doIsAbleToProxy_outcome (h : host) (n : network) :
  let r := (doIsAbleToProxy h n).1 in
  (p_success r = true <->
     ∃ code, answered h n code ∧ (code = 200 ∨ code = 301))
  ∧ (∀ code, answered h n code -> code ≠ 200 -> code ≠ 301 ->
       p_success r = false ∧ p_refused r = false ∧ is_Some (p_err r))
  ∧ (p_refused r = true <->
       ∃ e, DialTimeout n (ip h +:+ ":443") = Some e
            ∧ contains e "connection refused" = true).
Proof.
  cbv zeta. split; [|split].
  - split.
    + unfold doIsAbleToProxy, answered. fold (chosenSite n).
      destruct (DialTimeout n (ip h +:+ ":443")) as [e|]; [discriminate|].
      destruct (Head n ("http://" +:+ chosenSite n)) as [[e|code] rep];
        [discriminate|].
      destruct (code =? 200) eqn:E200; simpl.
      * intros _. exists code. apply Z.eqb_eq in E200. auto.
      * destruct (code =? 301) eqn:E301; simpl; [|discriminate].
        intros _. exists code. apply Z.eqb_eq in E301. auto.
    + intros (code & Hans & Hcode).
      rewrite (doIsAbleToProxy_answered h n code Hans).
      destruct Hcode as [-> | ->]; reflexivity.
  - intros code Hans H200 H301.
    rewrite (doIsAbleToProxy_answered h n code Hans).
    apply Z.eqb_neq in H200, H301. rewrite H200, H301. simpl.
    repeat split. eexists; reflexivity.
  - split.
    + unfold doIsAbleToProxy.
      destruct (DialTimeout n (ip h +:+ ":443")) as [e|].
      * simpl. intros Hc. exists e. auto.
      * destruct (Head n _) as [[e|code] rep]; [discriminate|].
        now destruct (negb (code =? 200) && negb (code =? 301)).
    + intros (e & Hdial & Hc). unfold doIsAbleToProxy. rewrite Hdial.
      exact Hc.
Qed.

End ProberProperties.

Section StickyRouting.
Context {W : Type} `{!Globals W}.

(** An attempt whose exchange succeeds ends the loop: the probe is
    successful when the reported virtual host is the expected one, and
    otherwise fails, logs the mismatch and keeps the attempt's nil
    error. *)
Lemma isAbleToProxy_loop_accepted (n i : nat) (lastErr : option error)
      (net : nat -> network) (h : host) (log : list logEntry) (code : Z) :
  answered h (net i) code -> code = 200 ∨ code = 301 ->
  let h1 := (doIsAbleToProxy h (net i)).2 in
  isAbleToProxy_loop (S n) i lastErr net h log
  = if String.eqb (reportedHost h1) (fullName h)
    then ((true, false, None), h1, log)
    else ((false, false, None), h1, log ++ [LogError (mismatchError h1)]).
Proof.
  intros Hans Hcode. cbv zeta. simpl.
  pose proof (doIsAbleToProxy_answered h (net i) code Hans) as Hr.
  destruct (doIsAbleToProxy_host h (net i)) as [v Hv].
  destruct (doIsAbleToProxy h (net i)) as [r h1]. simpl in Hr, Hv. subst r h1.
  assert (Hacc : negb (code =? 200) && negb (code =? 301) = false)
    by (destruct Hcode as [-> | ->]; reflexivity).
  rewrite Hacc. simpl.
  unfold fullName at 1. simpl. fold (fullName h).
  now destruct (String.eqb v (fullName h)).
Qed.

Lemma isAbleToProxy_accepted (net : nat -> network) (h : host) (code : Z) :
  answered h (net 0%nat) code -> code = 200 ∨ code = 301 ->
  reportedHost (isAbleToProxy net h).1.2 ≠ fullName h ->
  isAbleToProxy net h
  = ((false, false, None), (isAbleToProxy net h).1.2,
     [LogError (mismatchError (isAbleToProxy net h).1.2)]).
Proof.
  intros Hans Hcode. unfold isAbleToProxy, proxyAttempts.
  rewrite (isAbleToProxy_loop_accepted _ _ _ _ _ _ code Hans Hcode).
  cbv zeta.
  destruct (String.eqb _ (fullName h)) eqn:E; simpl; intros Hne.
  - apply String.eqb_eq in E. contradiction.
  - reflexivity.
Qed.

(** C5. When the proxied HEAD request of a probe is answered with status
    200 but the virtual host that the tunnel reported is not the host's
    fully-qualified name [name.domain], the probe reports
    [online = false], and so does the status of the test cycle that ran
    it. *)
Theorem sticky_routing_enforced (net : nat -> network) (h : host) :
  answered h (net 0%nat) 200 ->
  reportedHost (isAbleToProxy net h).1.2 ≠ name h +:+ "." +:+ cfldomain ->
  p_success (isAbleToProxy net h).1.1 = false
  ∧ ∀ timedOut tTest tSuccess (w : W),
      online (testCycle net timedOut tTest tSuccess h w).1.1 = false.
Proof.
  intros Hans Hne.
  pose proof (isAbleToProxy_accepted net h 200 Hans (or_introl eq_refl) Hne) as Heq.
  split; [now rewrite Heq|].
  intros timedOut tTest tSuccess w. unfold testCycle.
  rewrite Heq. now destruct timedOut.
Qed.

(** C9. When an attempt's exchange succeeds (status 200 or 301) but the
    reported virtual host is not the host's fully-qualified name,
    [isAbleToProxy] returns the error of the attempt, which is nil, and
    not the mismatch error: that error is only written to the log. *)
Theorem mismatch_error_not_returned (net : nat -> network) (h : host) (code : Z) :
  answered h (net 0%nat) code -> code = 200 ∨ code = 301 ->
  reportedHost (isAbleToProxy net h).1.2 ≠ fullName h ->
  let r := (isAbleToProxy net h).1.1 in
  let h' := (isAbleToProxy net h).1.2 in
  p_success r = false
  ∧ p_err r = p_err (doIsAbleToProxy h (net 0%nat)).1
  ∧ p_err r = None
  ∧ p_err r ≠ Some (mismatchError h')
  ∧ LogError (mismatchError h') ∈ (isAbleToProxy net h).2.
Proof.
  intros Hans Hcode Hne. cbv zeta.
  rewrite (isAbleToProxy_accepted net h code Hans Hcode Hne). simpl.
  rewrite (doIsAbleToProxy_answered h (net 0%nat) code Hans).
  assert (Hacc : negb (code =? 200) && negb (code =? 301) = false)
    by (destruct Hcode as [-> | ->]; reflexivity).
  rewrite Hacc. unfold p_success, p_err. simpl.
  repeat split; try discriminate. apply list_elem_of_singleton. reflexivity.
Qed.

End StickyRouting.

(** ** The failure path, pause and reset *)

Section Lifecycle.
Context {W : Type} `{!Globals W}.

(** A test cycle whose status is offline ends in the rotation-only
    deregistration and does not call the providers. *)
Lemma testCycle_offline (net : nat -> network) (timedOut : bool)
      (tTest tSuccess : Time) (h : host) (w : W) :
  online (testCycle net timedOut tTest tSuccess h w).1.1 = false ->
  ∃ v, (testCycle net timedOut tTest tSuccess h w).1.2
       = deregisterFromRotations (set_lastTest tTest (set_reportedHost v h))
     ∧ (testCycle net timedOut tTest tSuccess h w).2 = w.
Proof.
  unfold testCycle.
  destruct (isAbleToProxy_host net h) as [v Hv].
  destruct (isAbleToProxy net h) as [[[[on refused] err] h1] log].
  simpl in Hv. subst h1.
  destruct timedOut; simpl.
  - intros _. exists v. split; reflexivity.
  - destruct on; simpl.
    + destruct (register _ w) as [[e h3] w3]. simpl. discriminate.
    + intros _. exists v. split; reflexivity.
Qed.

(** C4. The rotation-only deregistration of the failure path removes the
    host, whatever its class, from every rotation group it was assigned,
    primary and secondary, and leaves the [cdnRecord] and [noCdnRecord]
    fields as they were; a test cycle that ends offline does exactly
    that and does not call the DNS provider. *)
Theorem failure_path_keeps_records (h : host) :
  let h' := deregisterFromRotations h in
  ((∀ g, g ∈ (cdnGroups h').*2 -> ¬ inRotation h' g)
   ∧ (∀ g, g ∈ (noCdnGroups h').*2 -> ¬ inRotation h' g)
   ∧ (cdnGroups h').*1 = (cdnGroups h).*1
   ∧ (noCdnGroups h').*1 = (noCdnGroups h).*1
   ∧ cdnRecord h' = cdnRecord h
   ∧ noCdnRecord h' = noCdnRecord h)
  ∧ ∀ net timedOut tTest tSuccess (w : W),
      let c := testCycle net timedOut tTest tSuccess h w in
      online c.1.1 = false ->
      (∀ g, g ∈ rotations c.1.2 -> ¬ inRotation c.1.2 g)
      ∧ cdnRecord c.1.2 = cdnRecord h
      ∧ noCdnRecord c.1.2 = noCdnRecord h
      ∧ c.2 = w.
Proof.
  cbv zeta. split.
  - repeat split.
    + intros g Hin. apply deregisterFromRotations_not_member.
      unfold rotations. apply elem_of_app. now left.
    + intros g Hin. apply deregisterFromRotations_not_member.
      unfold rotations. apply elem_of_app. now right.
    + apply deregisterGroups_keys.
    + apply deregisterGroups_keys.
  - intros net timedOut tTest tSuccess w Hoff.
    destruct (testCycle_offline net timedOut tTest tSuccess h w Hoff)
      as (v & -> & ->).
    repeat split. apply deregisterFromRotations_not_member.
Qed.

(** C2, as the code has it. Entering the Paused state, by the pause
    deadline or by an unregister signal, removes the host from every
    rotation group it was assigned. Its DNS records are destroyed only
    when the host is peer-class (each record is handed to the provider
    and its field is cleared when the call succeeds); a fallback-class
    host keeps [cdnRecord] and [noCdnRecord] and the provider is not
    called. *)
Theorem pause_entry_by_class (e : event) (a : actor) (w : W) :
  mode a = Active -> e = EvPauseTimer ∨ e = EvUnregister ->
  ∃ a' w',
    step e a w = Some (a', None, w')
    ∧ mode a' = Paused
    ∧ (∀ g, g ∈ rotations (self a') -> ¬ inRotation (self a') g)
    ∧ (isFallback (self a) = false -> destroysRecords (self a) w (self a') w')
    ∧ (isFallback (self a) = true -> keepsRecords (self a) w (self a') w').
Proof.
  intros Hmode He.
  pose proof (deregister_effects (self a) w) as (Hrot & Hpeer & Hfb).
  exists {| self := (deregister (self a) w).1; mode := Paused;
            checkImmediately := checkImmediately a |}, (deregister (self a) w).2.
  split; [|split; [reflexivity | split; [exact Hrot | split; assumption]]].
  unfold step, pauseEntry. rewrite Hmode.
  destruct He as [-> | ->]; now destruct (deregister (self a) w).
Qed.

(** C1, as the code has it. A reset with a name that differs from the
    current one, while a CDN record exists under the old name, hands
    the old name's primary and secondary DNS records to the provider for
    destruction (a field is cleared when its call succeeds) and then
    adopts the new name; the rotation groups and the host's memberships
    in them are left as they were. *)
Theorem doReset_rename_destroys_records
        (newName : string) (now : Time) (h : host) (w : W) :
  newName ≠ name h -> cdnRecord h ≠ None ->
  let h' := (doReset newName now h w).1 in
  let d1 := cflutil_DestroyRecord (cdnRecord h) w in
  let d2 := cflutil_DestroyRecord (noCdnRecord h) d1.2 in
  (doReset newName now h w).2 = d2.2
  ∧ (d1.1 = None -> cdnRecord h' = None)
  ∧ (d2.1 = None -> noCdnRecord h' = None)
  ∧ name h' = newName
  ∧ cdnGroups h' = cdnGroups h
  ∧ noCdnGroups h' = noCdnGroups h
  ∧ lastSuccess h' = now
  ∧ lastTest h' = zeroTime.
Proof.
  intros Hname Hrec. cbv zeta. unfold doReset. simpl.
  apply String.eqb_neq in Hname. rewrite Hname. simpl.
  destruct (cdnRecord h) as [r|] eqn:Hr; [|contradiction].
  unfold doDeregisterCdnHost. simpl. rewrite Hr.
  destruct (cflutil_DestroyRecord (Some r) w) as [[e1|] w1]; simpl;
    unfold doDeregisterNoCdnHost; simpl;
    destruct (cflutil_DestroyRecord (noCdnRecord h) w1) as [[e2|] w2]; simpl;
    repeat split; intros; discriminate.
Qed.

(** C10. For a host whose [cdnRecord] is nil a reset changes only the
    name and the two timestamps, also when the name is new: the provider
    is not called and [noCdnRecord], nil or not, stays as it was. *)
Theorem doReset_without_cdnRecord
        (newName : string) (now : Time) (h : host) (w : W) :
  cdnRecord h = None ->
  doReset newName now h w
  = (set_name newName (set_lastTest zeroTime (set_lastSuccess now h)), w)
  ∧ noCdnRecord (doReset newName now h w).1 = noCdnRecord h
  ∧ (doReset newName now h w).2 = w.
Proof.
  intros Hrec. unfold doReset. simpl. rewrite Hrec.
  destruct (String.eqb newName (name h)) eqn:E; simpl.
  - apply String.eqb_eq in E. subst newName.
    repeat split.
  - repeat split.
Qed.

End Lifecycle.

(** ** Registration *)

Lemma set_cdnRecord_same (h : host) : set_cdnRecord (cdnRecord h) h = h.
Proof. now destruct h. Qed.

Lemma set_noCdnRecord_same (h : host) : set_noCdnRecord (noCdnRecord h) h = h.
Proof. now destruct h. Qed.

Lemma set_cdnGroups_same (h : host) : set_cdnGroups (cdnGroups h) h = h.
Proof. now destruct h. Qed.

Lemma set_noCdnGroups_same (h : host) : set_noCdnGroups (noCdnGroups h) h = h.
Proof. now destruct h. Qed.

Section Registration.
Context {W : Type} `{!Globals W}.

Lemma registerCdnHost_duplicate (h : host) (w w' : W)
      (rec : option CfRecord) (e : error) :
  cdnRecord h = None ->
  cflutil_Register (name h) (ip h) w = ((rec, Some e), w') ->
  isDuplicateError e = true ->
  registerCdnHost h w = (None, set_cdnRecord rec h, w').
Proof.
  intros Hrec Hreg Hdup. unfold registerCdnHost.
  now rewrite Hrec, Hreg, Hdup.
Qed.

Lemma registerNoCdnHost_duplicate (h : host) (w w' : W)
      (rec : option CfRecord) (e : error) :
  noCdnRecord h = None ->
  cflutil_Register (noCdnPrefix +:+ name h) (ip h) w = ((rec, Some e), w') ->
  isDuplicateError e = true ->
  registerNoCdnHost h w = (None, set_noCdnRecord rec h, w').
Proof.
  intros Hrec Hreg Hdup. unfold registerNoCdnHost.
  now rewrite Hrec, Hreg, Hdup.
Qed.

Lemma registerCdnHost_frame (h : host) (w : W) :
  sameButCdn h (registerCdnHost h w).1.2
  ∧ cdnGroups (registerCdnHost h w).1.2 = cdnGroups h.
Proof.
  unfold registerCdnHost, sameButCdn.
  destruct (cdnRecord h); [repeat split|].
  destruct (cflutil_Register (name h) (ip h) w) as [[rec [e|]] w'];
    [destruct (isDuplicateError e)|]; repeat split.
Qed.

Lemma registerNoCdnHost_frame (h : host) (w : W) :
  sameButNoCdn h (registerNoCdnHost h w).1.2
  ∧ noCdnGroups (registerNoCdnHost h w).1.2 = noCdnGroups h.
Proof.
  unfold registerNoCdnHost, sameButNoCdn.
  destruct (noCdnRecord h); [repeat split|].
  destruct (cflutil_Register (noCdnPrefix +:+ name h) (ip h) w) as [[rec [e|]] w'];
    [destruct (isDuplicateError e)|]; repeat split.
Qed.

(** The rotation step writes the group map only and keeps its keys; when
    it returns no error the host is a member of every group, and an error
    it returns is never a duplicate. *)
Lemma registerToCdnRotations_ok (h : host) (w : W) :
  ∃ err gs, registerToCdnRotations h w = (err, set_cdnGroups gs h)
            ∧ gs.*1 = (cdnGroups h).*1
            ∧ (err = None -> ∀ g, g ∈ gs.*2 -> inRotation h g)
            ∧ (∀ e, err = Some e -> isDuplicateError e = false).
Proof.
  unfold registerToCdnRotations.
  pose proof (registerToRotations_ok h (cdnGroups h) w) as (H1 & H2 & H3).
  destruct (registerToRotations h (cdnGroups h) w) as [err gs]; simpl in *.
  now exists err, gs.
Qed.

Lemma registerToNoCdnRotations_ok (h : host) (w : W) :
  ∃ err gs, registerToNoCdnRotations h w = (err, set_noCdnGroups gs h)
            ∧ gs.*1 = (noCdnGroups h).*1
            ∧ (err = None -> ∀ g, g ∈ gs.*2 -> inRotation h g)
            ∧ (∀ e, err = Some e -> isDuplicateError e = false).
Proof.
  unfold registerToNoCdnRotations.
  pose proof (registerToRotations_ok h (noCdnGroups h) w) as (H1 & H2 & H3).
  destruct (registerToRotations h (noCdnGroups h) w) as [err gs]; simpl in *.
  now exists err, gs.
Qed.

Lemma registerCdn_frame (h : host) (w : W) :
  sameButCdn h (registerCdn h w).1.2.
Proof.
  unfold registerCdn.
  pose proof (registerCdnHost_frame h w) as [Hf _].
  destruct (registerCdnHost h w) as [[[e|] h1] w1]; simpl in Hf; [exact Hf|].
  destruct (registerToCdnRotations_ok h1 w1) as (err & gs & -> & _).
  destruct err; simpl; exact Hf.
Qed.

Lemma registerNoCdn_frame (h : host) (w : W) :
  sameButNoCdn h (registerNoCdn h w).1.2.
Proof.
  unfold registerNoCdn.
  pose proof (registerNoCdnHost_frame h w) as [Hf _].
  destruct (registerNoCdnHost h w) as [[[e|] h1] w1]; simpl in Hf; [exact Hf|].
  destruct (registerToNoCdnRotations_ok h1 w1) as (err & gs & -> & _).
  destruct err; simpl; exact Hf.
Qed.

Lemma registerCdn_ok (h : host) (w : W) :
  (registerCdn h w).1.1 = None -> inCdnRotations (registerCdn h w).1.2.
Proof.
  unfold registerCdn, inCdnRotations.
  destruct (registerCdnHost h w) as [[[e|] h1] w1]; [discriminate|].
  destruct (registerToCdnRotations_ok h1 w1) as (err & gs & -> & _ & Hin & _).
  destruct err; [discriminate|]. simpl. intros _. now apply Hin.
Qed.

Lemma registerNoCdn_ok (h : host) (w : W) :
  (registerNoCdn h w).1.1 = None -> inNoCdnRotations (registerNoCdn h w).1.2.
Proof.
  unfold registerNoCdn, inNoCdnRotations.
  destruct (registerNoCdnHost h w) as [[[e|] h1] w1]; [discriminate|].
  destruct (registerToNoCdnRotations_ok h1 w1) as (err & gs & -> & _ & Hin & _).
  destruct err; [discriminate|]. simpl. intros _. now apply Hin.
Qed.

Lemma registerCdn_again (h : host) (w : W) :
  inCdnRotations h ->
  (cdnRecord h = None -> reportsDuplicate (name h) h w) ->
  registerCdn h w = (None, h, w).
Proof.
  intros Hin Hdup. unfold registerCdn.
  assert (Hhost : registerCdnHost h w = (None, h, w)).
  { destruct (cdnRecord h) as [r|] eqn:Hr.
    - unfold registerCdnHost. now rewrite Hr.
    - destruct (Hdup eq_refl) as (e & Hreg & He).
      rewrite (registerCdnHost_duplicate h w w None e Hr Hreg He).
      now rewrite <- Hr, set_cdnRecord_same. }
  rewrite Hhost. unfold registerToCdnRotations.
  rewrite registerToRotations_members by exact Hin.
  now rewrite set_cdnGroups_same.
Qed.

Lemma registerNoCdn_again (h : host) (w : W) :
  inNoCdnRotations h ->
  (noCdnRecord h = None -> reportsDuplicate (noCdnPrefix +:+ name h) h w) ->
  registerNoCdn h w = (None, h, w).
Proof.
  intros Hin Hdup. unfold registerNoCdn.
  assert (Hhost : registerNoCdnHost h w = (None, h, w)).
  { destruct (noCdnRecord h) as [r|] eqn:Hr.
    - unfold registerNoCdnHost. now rewrite Hr.
    - destruct (Hdup eq_refl) as (e & Hreg & He).
      rewrite (registerNoCdnHost_duplicate h w w None e Hr Hreg He).
      now rewrite <- Hr, set_noCdnRecord_same. }
  rewrite Hhost. unfold registerToNoCdnRotations.
  rewrite registerToRotations_members by exact Hin.
  now rewrite set_noCdnGroups_same.
Qed.

End Registration.

Section RegisterProperties.
Context {W : Type} `{!Globals W}.

Lemma deployed_cfrDist (h h' : host) :
  cfrDist h' = cfrDist h -> deployed h' = deployed h.
Proof. unfold deployed. now intros ->. Qed.

Lemma register_not_deployed (h : host) (w : W) :
  deployed h = false ->
  register h w = registerCdn h w
  ∧ noCdnRecord (register h w).1.2 = noCdnRecord h
  ∧ noCdnGroups (register h w).1.2 = noCdnGroups h.
Proof.
  intros Hd.
  assert (Heq : register h w = registerCdn h w).
  { unfold register.
    pose proof (registerCdn_frame h w) as (_ & _ & Hc & _).
    destruct (registerCdn h w) as [[[e|] h1] w1]; [reflexivity|].
    simpl in Hc. now rewrite (deployed_cfrDist h h1 Hc), Hd. }
  rewrite Heq. split; [reflexivity|].
  pose proof (registerCdn_frame h w) as (_ & _ & _ & Hr & Hg). now split.
Qed.

Lemma register_aborts (h : host) (w : W) :
  is_Some (registerCdn h w).1.1 -> register h w = registerCdn h w.
Proof.
  unfold register.
  destruct (registerCdn h w) as [[[e|] h1] w1]; [reflexivity|].
  simpl. intros [e He]. discriminate.
Qed.

Lemma register_deployed (h : host) (w : W) :
  deployed h = true -> (registerCdn h w).1.1 = None ->
  register h w = registerNoCdn (registerCdn h w).1.2 (registerCdn h w).2.
Proof.
  intros Hd. unfold register.
  pose proof (registerCdn_frame h w) as (_ & _ & Hc & _).
  destruct (registerCdn h w) as [[[e|] h1] w1]; [discriminate|].
  simpl in *. intros _. now rewrite (deployed_cfrDist h h1 Hc), Hd.
Qed.

Lemma registerNoCdn_record (h : host) (w : W) :
  noCdnRecord h = None -> (registerNoCdn h w).1.1 = None ->
  noCdnRecord (registerNoCdn h w).1.2
  = (cflutil_Register (noCdnPrefix +:+ name h) (ip h) w).1.1.
Proof.
  intros Hr. unfold registerNoCdn, registerNoCdnHost. rewrite Hr.
  destruct (cflutil_Register (noCdnPrefix +:+ name h) (ip h) w)
    as [[rec [e|]] w1]; simpl.
  - destruct (isDuplicateError e); [|discriminate].
    destruct (registerToNoCdnRotations_ok (set_noCdnRecord rec h) w1)
      as (err & gs & -> & _). now destruct err.
  - destruct (registerToNoCdnRotations_ok (set_noCdnRecord rec h) w1)
      as (err & gs & -> & _). now destruct err.
Qed.

Lemma register_secondary (h : host) (w : W) :
  deployed h = true -> (register h w).1.1 = None ->
  inNoCdnRotations (register h w).1.2
  ∧ (noCdnRecord h = None ->
     noCdnRecord (register h w).1.2
     = (cflutil_Register (noCdnPrefix +:+ name h) (ip h) (registerCdn h w).2).1.1).
Proof.
  intros Hd Hok.
  assert (Hprim : (registerCdn h w).1.1 = None).
  { destruct ((registerCdn h w).1.1) as [e|] eqn:E; [|reflexivity].
    rewrite register_aborts in Hok by (rewrite E; eexists; reflexivity).
    congruence. }
  rewrite (register_deployed h w Hd Hprim) in *.
  pose proof (registerCdn_frame h w) as (Hn & Hi & _ & Hr & _).
  split.
  - now apply registerNoCdn_ok.
  - intros Hnone. rewrite registerNoCdn_record; [now rewrite Hn, Hi | congruence | assumption].
Qed.

Lemma register_post (h h1 : host) (w w1 : W) :
  register h w = (None, h1, w1) ->
  inCdnRotations h1 ∧ (deployed h1 = true -> inNoCdnRotations h1).
Proof.
  intros Hreg.
  destruct (deployed h) eqn:Hd.
  - assert (Hprim : (registerCdn h w).1.1 = None).
    { destruct ((registerCdn h w).1.1) as [e|] eqn:E; [|reflexivity].
      rewrite register_aborts in Hreg by (rewrite E; eexists; reflexivity).
      rewrite Hreg in E. discriminate. }
    pose proof (register_secondary h w Hd) as Hsec.
    rewrite Hreg in Hsec. simpl in Hsec. split; [|intros _; now apply Hsec].
    rewrite (register_deployed h w Hd Hprim) in Hreg.
    pose proof (registerCdn_ok h w Hprim) as Hin.
    pose proof (registerNoCdn_frame (registerCdn h w).1.2 (registerCdn h w).2)
      as (_ & Hi & _ & _ & Hg).
    rewrite Hreg in Hi, Hg. simpl in Hi, Hg.
    unfold inCdnRotations, inRotation in *. now rewrite Hg, Hi.
  - destruct (register_not_deployed h w Hd) as (Heq & _).
    rewrite Heq in Hreg.
    pose proof (registerCdn_ok h w) as Hin.
    pose proof (registerCdn_frame h w) as (_ & _ & Hc & _).
    rewrite Hreg in Hin, Hc. simpl in Hin, Hc.
    split; [now apply Hin|].
    rewrite (deployed_cfrDist h h1 Hc), Hd. discriminate.
Qed.

Lemma register_twice (h h1 : host) (w w1 : W) :
  register h w = (None, h1, w1) ->
  (cdnRecord h1 = None -> reportsDuplicate (name h1) h1 w1) ->
  (deployed h1 = true -> noCdnRecord h1 = None ->
   reportsDuplicate (noCdnPrefix +:+ name h1) h1 w1) ->
  register h1 w1 = (None, h1, w1).
Proof.
  intros Hreg Hdup1 Hdup2.
  destruct (register_post h h1 w w1 Hreg) as [Hin1 Hin2].
  unfold register. rewrite (registerCdn_again h1 w1 Hin1 Hdup1).
  destruct (deployed h1) eqn:Hd; [|reflexivity].
  apply registerNoCdn_again; auto.
Qed.

(** C6. A create call of the DNS provider that reports the duplicate
    condition is a success of its registration step. A rotation group that
    reports the duplicate condition does not stop the rotation step: the
    only error that step returns is one that is not a duplicate, and when
    every group reports the duplicate the step returns no error and
    changes nothing. When a run of [register] surfaced no error and the
    provider answers the create calls of a second run with the duplicate
    condition, the second run surfaces no error either and leaves the
    host's records, its rotation groups and the provider as the first run
    left them. *)
Theorem registration_idempotent (h : host) (w : W) :
  (∀ w' rec e,
      cdnRecord h = None ->
      cflutil_Register (name h) (ip h) w = ((rec, Some e), w') ->
      isDuplicateError e = true ->
      registerCdnHost h w = (None, set_cdnRecord rec h, w'))
  ∧ (∀ w' rec e,
      noCdnRecord h = None ->
      cflutil_Register (noCdnPrefix +:+ name h) (ip h) w = ((rec, Some e), w') ->
      isDuplicateError e = true ->
      registerNoCdnHost h w = (None, set_noCdnRecord rec h, w'))
  ∧ (∀ gs e, (registerToRotations h gs w).1 = Some e ->
             isDuplicateError e = false)
  ∧ (∀ gs, (∀ g, g ∈ gs.*2 -> inRotation h g) ->
           registerToRotations h gs w = (None, gs))
  ∧ (∀ h1 w1,
      register h w = (None, h1, w1) ->
      (cdnRecord h1 = None -> reportsDuplicate (name h1) h1 w1) ->
      (deployed h1 = true -> noCdnRecord h1 = None ->
       reportsDuplicate (noCdnPrefix +:+ name h1) h1 w1) ->
      register h1 w1 = (None, h1, w1)).
Proof.
  split; [|split; [|split; [|split]]].
  - intros w' rec e. apply registerCdnHost_duplicate.
  - intros w' rec e. apply registerNoCdnHost_duplicate.
  - intros gs. apply registerToRotations_ok.
  - intros gs. apply registerToRotations_members.
  - intros h1 w1. apply register_twice.
Qed.

End RegisterProperties.

(** ** The secondary record and the distribution *)

Section Secondary.
Context {W : Type} `{!Globals W}.

Lemma doReset_noCdnRecord (newName : string) (now : Time) (h : host) (w : W) :
  noCdnRecord (doReset newName now h w).1 ≠ None -> noCdnRecord h ≠ None.
Proof.
  unfold doReset. simpl.
  destruct (negb (String.eqb newName (name h))); [|exact id].
  destruct (cdnRecord h); [|exact id].
  unfold doDeregisterCdnHost. simpl.
  destruct (cflutil_DestroyRecord _ w) as [[e|] w1]; simpl;
    unfold doDeregisterNoCdnHost; simpl;
    destruct (cflutil_DestroyRecord _ w1) as [[e'|] w2]; simpl;
    tauto.
Qed.

Lemma deregister_noCdnRecord (h : host) (w : W) :
  noCdnRecord (deregister h w).1 ≠ None -> noCdnRecord h ≠ None.
Proof.
  destruct (isFallback h) eqn:Hfb.
  - rewrite deregister_fallback by exact Hfb. exact id.
  - destruct (deregister_peer h w Hfb) as (w1 & _ & Hn).
    destruct (noCdnRecord h); [discriminate|].
    destruct Hn as [Hn _]. intros Hne. contradiction.
Qed.

Lemma doInitCfrDist_noCdnRecord (h : host) (w : W) :
  noCdnRecord (doInitCfrDist h w).1 = noCdnRecord h.
Proof.
  unfold doInitCfrDist.
  destruct (cfrDist h) as [d|] eqn:Hd.
  - destruct (String.eqb (Status d) "InProgress").
    + destruct (cfr_RefreshStatus d w) as [d' w']. reflexivity.
    + rewrite Hd. reflexivity.
  - rewrite Hd.
    destruct (cfr_CreateDistribution _ _ _ w) as [[dist [e|]] w2]; reflexivity.
Qed.

Lemma testCycle_noCdnRecord (net : nat -> network) (timedOut : bool)
      (tTest tSuccess : Time) (h : host) (w : W) :
  noCdnRecord (testCycle net timedOut tTest tSuccess h w).1.2 ≠ None ->
  noCdnRecord h ≠ None ∨ deployed h = true.
Proof.
  intros Hne. destruct (deployed h) eqn:Hd; [now right | left; revert Hne].
  unfold testCycle.
  destruct (isAbleToProxy_host net h) as [v Hv].
  destruct (isAbleToProxy net h) as [[[[on refused] err] h1] log].
  simpl in Hv. subst h1.
  destruct (online _); [|exact id].
  match goal with
  | |- context [register ?h' w] =>
    pose proof (register_not_deployed h' w Hd) as (_ & Hr & _);
      destruct (register h' w) as [[e h3] w3]
  end.
  simpl in *. now rewrite Hr.
Qed.

(** One turn of the actor creates the secondary record only when the
    distribution is deployed. *)
Lemma step_noCdnRecord (e : event) (a a' : actor) (s : option status) (w w' : W) :
  step e a w = Some (a', s, w') ->
  noCdnRecord (self a') ≠ None ->
  noCdnRecord (self a) ≠ None ∨ deployed (self a) = true.
Proof.
  unfold step.
  destruct (mode a), e as [newName now| | | |net timedOut tTest tSuccess];
    try discriminate.
  - pose proof (doReset_noCdnRecord newName now (self a) w) as Hr.
    destruct (doReset newName now (self a) w) as [h1 w1].
    intros [= <- _ _]. simpl in *. auto.
  - unfold pauseEntry.
    pose proof (deregister_noCdnRecord (self a) w) as Hr.
    destruct (deregister (self a) w) as [h1 w1].
    intros [= <- _ _]. simpl in *. auto.
  - pose proof (doInitCfrDist_noCdnRecord (self a) w) as Hr.
    destruct (doInitCfrDist (self a) w) as [h1 w1].
    intros [= <- _ _]. simpl in *. rewrite Hr. auto.
  - unfold pauseEntry.
    pose proof (deregister_noCdnRecord (self a) w) as Hr.
    destruct (deregister (self a) w) as [h1 w1].
    intros [= <- _ _]. simpl in *. auto.
  - pose proof (testCycle_noCdnRecord net timedOut tTest tSuccess (self a) w) as Hr.
    destruct (testCycle net timedOut tTest tSuccess (self a) w) as [[s1 h1] w1].
    intros [= <- _ _]. simpl in *. auto.
  - pose proof (doReset_noCdnRecord newName now (self a) w) as Hr.
    destruct (doReset newName now (self a) w) as [h1 w1].
    intros [= <- _ _]. simpl in *. auto.
  - intros [= <- _ _]. auto.
Qed.

Lemma runs_noCdnRecord (n i : string) (r : option CfRecord)
      (tr : list (actor * W)) :
  runs (newHost n i r) tr ->
  ∀ a w rest, tr = (a, w) :: rest ->
    noCdnRecord (self a) ≠ None ->
    ∃ a0 w0, (a0, w0) ∈ rest ∧ deployed (self a0) = true.
Proof.
  induction 1 as [now now' w0 | e a w a' s w' tr Hruns IH Hstep];
    intros b wb rest [= <- <- <-].
  - simpl. intros Hne. now contradiction Hne.
  - intros Hne.
    destruct (step_noCdnRecord e a a' s w w' Hstep Hne) as [Hold | Hdep].
    + destruct (IH a w tr eq_refl Hold) as (a0 & w0 & Hin & Hd).
      exists a0, w0. split; [now right | exact Hd].
    + exists a, w. split; [now left | exact Hdep].
Qed.

Lemma runs_exec (h0 : host) (es : list event) (tr : list (actor * W)) :
  runs h0 tr -> runs h0 (exec es tr).
Proof.
  revert tr. induction es as [|e es IH]; intros tr Hruns; [now destruct tr|].
  destruct tr as [|[a w] rest]; [exact Hruns|]. simpl.
  destruct (step e a w) as [[[a' s] w']|] eqn:E; [|exact Hruns].
  apply IH. now apply (runs_step h0 e a w a' s w' rest).
Qed.

(** C8. [register] ensures the secondary (no-CDN) record and rotation
    memberships exactly when a distribution handle exists with status
    "Deployed": without one it leaves the secondary record and groups
    untouched; with one, a run that returns no error has made the host a
    member of all its secondary groups and has stored the record the
    provider returned for the secondary name (an error of the primary
    step ends the run before the secondary step, to be retried).
    Consequently, in every run of the actor from [newHost], a state with
    a non-nil [noCdnRecord] comes after a state whose distribution had
    status "Deployed". *)
Theorem secondary_requires_deployed (h : host) (w : W) :
  (deployed h = false ->
     register h w = registerCdn h w
     ∧ noCdnRecord (register h w).1.2 = noCdnRecord h
     ∧ noCdnGroups (register h w).1.2 = noCdnGroups h)
  ∧ (deployed h = true -> (register h w).1.1 = None ->
     inNoCdnRotations (register h w).1.2
     ∧ (noCdnRecord h = None ->
        noCdnRecord (register h w).1.2
        = (cflutil_Register (noCdnPrefix +:+ name h) (ip h)
                            (registerCdn h w).2).1.1))
  ∧ (is_Some (registerCdn h w).1.1 ->
     register h w = registerCdn h w
     ∧ noCdnRecord (register h w).1.2 = noCdnRecord h
     ∧ noCdnGroups (register h w).1.2 = noCdnGroups h)
  ∧ (∀ n i r tr a (w0 : W),
        runs (newHost n i r) ((a, w0) :: tr) ->
        noCdnRecord (self a) ≠ None ->
        ∃ a0 w1, (a0, w1) ∈ tr ∧ deployed (self a0) = true).
Proof.
  split; [|split; [|split]].
  - apply register_not_deployed.
  - apply register_secondary.
  - intros Herr. rewrite (register_aborts h w Herr).
    pose proof (registerCdn_frame h w) as (_ & _ & _ & Hr & Hg). now repeat split.
  - intros n i r tr a w0 Hruns Hne.
    exact (runs_noCdnRecord n i r _ Hruns a w0 tr eq_refl Hne).
Qed.

End Secondary.

(** * The properties on concrete hosts *)

(** The claim C1 as the specification states it does not hold: after the
    rename of the registered peer "p1" the host is still a member of its
    rotation group. *)
Lemma doReset_keeps_rotations :
  ¬ (∀ (newName : string) (now : Time) (h : host) (w : cloud),
        newName ≠ name h -> cdnRecord h ≠ None ->
        let h' := (doReset newName now h w).1 in
        cdnRecord h' = None ∧ noCdnRecord h' = None
        ∧ ∀ g, g ∈ rotations h' -> ¬ inRotation h' g).
Proof.
  intros Hclaim.
  assert (Hname : "p1-new" ≠ name p1) by (vm_compute; discriminate).
  assert (Hrec : cdnRecord p1 ≠ None) by (vm_compute; discriminate).
  destruct (Hclaim "p1-new" 7 p1 p1_cloud Hname Hrec) as (_ & _ & Hrot).
  apply (Hrot {| subdomain := "peers"; members := {[ "1.2.3.4" ]} |}).
  - vm_compute. left.
  - vm_compute. reflexivity.
Qed.

(** The rename of the registered peer "p1": its primary record is destroyed,
    the name changes and the rotation groups stay. *)
Lemma doReset_rename_destroys_records_witness :
  "p1-new" ≠ name p1 ∧ cdnRecord p1 ≠ None
  ∧ cdnRecord (doReset "p1-new" 7 p1 p1_cloud).1 = None
  ∧ name (doReset "p1-new" 7 p1 p1_cloud).1 = "p1-new"
  ∧ cdnGroups (doReset "p1-new" 7 p1 p1_cloud).1 = cdnGroups p1.
Proof.
  assert (Hname : "p1-new" ≠ name p1) by (vm_compute; discriminate).
  assert (Hrec : cdnRecord p1 ≠ None) by (vm_compute; discriminate).
  destruct (doReset_rename_destroys_records "p1-new" 7 p1 p1_cloud Hname Hrec)
    as (_ & Hcdn & _ & Hn & Hg & _).
  refine (conj Hname (conj Hrec (conj (Hcdn _) (conj Hn Hg)))).
  vm_compute. reflexivity.
Defined.

(** The claim C2 as the specification states it does not hold: the
    registered fallback "fl-1" keeps its DNS record when it is paused. *)
Lemma pause_keeps_fallback_records :
  ¬ (∀ (e : event) (a : actor) (w : cloud),
        mode a = Active -> e = EvPauseTimer ∨ e = EvUnregister ->
        ∀ a' s w', step e a w = Some (a', s, w') ->
          cdnRecord (self a') = None ∧ noCdnRecord (self a') = None
          ∧ ∀ g, g ∈ rotations (self a') -> ¬ inRotation (self a') g).
Proof.
  intros Hclaim.
  destruct (step EvPauseTimer (active fl1) fl1_cloud) as [[[a' s] w']|] eqn:E;
    [|vm_compute in E; discriminate].
  destruct (Hclaim EvPauseTimer (active fl1) fl1_cloud eq_refl
                   (or_introl eq_refl) a' s w' E) as (Hcdn & _).
  vm_compute in E. injection E as <- _ _.
  vm_compute in Hcdn. discriminate.
Qed.

(** An unregister signal pauses the registered fallback "fl-1", which keeps
    its primary record. *)
Lemma pause_entry_by_class_witness :
  mode (active fl1) = Active
  ∧ ∃ a' w',
      step EvUnregister (active fl1) fl1_cloud = Some (a', None, w')
      ∧ mode a' = Paused
      ∧ cdnRecord (self a') = cdnRecord fl1
      ∧ w' = fl1_cloud.
Proof.
  split; [reflexivity|].
  destruct (pause_entry_by_class EvUnregister (active fl1) fl1_cloud eq_refl
                                 (or_intror eq_refl))
    as (a' & w' & Hstep & Hmode & _ & _ & Hfb).
  exists a', w'.
  assert (Hclass : isFallback (self (active fl1)) = true)
    by (vm_compute; reflexivity).
  destruct (Hfb Hclass) as (Hcdn & _ & Hw).
  exact (conj Hstep (conj Hmode (conj Hcdn Hw))).
Defined.

(** [deregister] on the registered peer "p1" and on the registered fallback
    "fl-1". *)
Lemma deregister_by_class_witness :
  isFallback p1 = false ∧ isFallback fl1 = true
  ∧ cdnRecord (deregister p1 p1_cloud).1 = None
  ∧ cdnRecord (deregister fl1 fl1_cloud).1 = cdnRecord fl1
  ∧ (∀ g, g ∈ rotations (deregister p1 p1_cloud).1 ->
          ¬ inRotation (deregister p1 p1_cloud).1 g).
Proof.
  assert (Hpeer : isFallback p1 = false) by (vm_compute; reflexivity).
  assert (Hfall : isFallback fl1 = true) by (vm_compute; reflexivity).
  destruct (deregister_by_class p1 p1_cloud) as (Hrot & _ & _ & Hp & _).
  destruct (deregister_by_class fl1 fl1_cloud) as (_ & _ & _ & _ & Hf).
  destruct (Hf Hfall) as (Hkeep & _).
  destruct (Hp Hpeer) as (w1 & Hcdn & _).
  change (cdnRecord p1) with
    (Some {| Id := "p1"; Name := "p1"; Value := "1.2.3.4" |}) in Hcdn.
  destruct Hcdn as (_ & Hcdn & _).
  refine (conj Hpeer (conj Hfall (conj (Hcdn _) (conj Hkeep Hrot)))).
  vm_compute. reflexivity.
Defined.

(** A refused dial takes the registered peer "p1" out of its rotation and
    leaves its primary record in place. *)
Lemma failure_path_keeps_records_witness :
  cdnRecord (deregisterFromRotations p1) = cdnRecord p1
  ∧ (∀ g, g ∈ (cdnGroups (deregisterFromRotations p1)).*2 ->
          ¬ inRotation (deregisterFromRotations p1) g)
  ∧ online (testCycle (fun _ => failing "connection refused") false 8 9 p1 p1_cloud).1.1
    = false
  ∧ cdnRecord (testCycle (fun _ => failing "connection refused") false 8 9 p1 p1_cloud).1.2
    = cdnRecord p1.
Proof.
  destruct (failure_path_keeps_records p1) as ((Hrot & _ & _ & _ & Hcdn & _) & Hcycle).
  assert (Hoff : online (testCycle (fun _ => failing "connection refused")
                                   false 8 9 p1 p1_cloud).1.1 = false)
    by (vm_compute; reflexivity).
  destruct (Hcycle (fun _ => failing "connection refused") false 8 9 p1_cloud Hoff)
    as (_ & Hcdn' & _).
  exact (conj Hcdn (conj Hrot (conj Hoff Hcdn'))).
Defined.

(** The peer "p1" behind a front that reports another virtual host. *)
Lemma sticky_routing_enforced_witness :
  answered p1 (answering 200 "x.getiantem.org") 200
  ∧ reportedHost (isAbleToProxy (fun _ => answering 200 "x.getiantem.org") p1).1.2
    ≠ "p1.getiantem.org"
  ∧ p_success (isAbleToProxy (fun _ => answering 200 "x.getiantem.org") p1).1.1 = false
  ∧ online (testCycle (fun _ => answering 200 "x.getiantem.org") false 8 9 p1 p1_cloud).1.1
    = false.
Proof.
  assert (Hans : answered p1 (answering 200 "x.getiantem.org") 200)
    by (split; vm_compute; reflexivity).
  assert (Hne : reportedHost
                  (isAbleToProxy (fun _ => answering 200 "x.getiantem.org") p1).1.2
                ≠ name p1 +:+ "." +:+ cfldomain)
    by (vm_compute; discriminate).
  destruct (sticky_routing_enforced (fun _ => answering 200 "x.getiantem.org") p1
                                    Hans Hne) as (Hoff & Hcycle).
  exact (conj Hans (conj Hne (conj Hoff (Hcycle false 8 9 p1_cloud)))).
Defined.

(** A new actor for "p1" against a provider that already holds its record:
    the first run absorbs the duplicate, the second changes nothing. *)
Lemma registration_idempotent_witness :
  let h := newHost "p1" "1.2.3.4" None in
  let h1 := (register h p1_cloud).1.2 in
  let w1 := (register h p1_cloud).2 in
  register h p1_cloud = (None, h1, w1)
  ∧ cdnRecord h1 = None
  ∧ reportsDuplicate (name h1) h1 w1
  ∧ register h1 w1 = (None, h1, w1).
Proof.
  cbv zeta.
  set (h := newHost "p1" "1.2.3.4" None).
  set (h1 := (register h p1_cloud).1.2).
  set (w1 := (register h p1_cloud).2).
  assert (Hfirst : register h p1_cloud = (None, h1, w1))
    by (vm_compute; reflexivity).
  assert (Hnone : cdnRecord h1 = None) by (vm_compute; reflexivity).
  assert (Hdup : reportsDuplicate (name h1) h1 w1)
    by (exists "The record already exists."; split; vm_compute; reflexivity).
  destruct (registration_idempotent h p1_cloud) as (_ & _ & _ & _ & Hidem).
  refine (conj Hfirst (conj Hnone (conj Hdup (Hidem h1 w1 Hfirst (fun _ => Hdup) _)))).
  intros Hdep. vm_compute in Hdep. discriminate.
Defined.

(** One attempt against a refusing host, against a redirecting site and
    against a site that answers 404. *)
Lemma doIsAbleToProxy_outcome_witness :
  p_refused (doIsAbleToProxy p1 (failing "dial tcp 1.2.3.4:443: connection refused")).1
  = true
  ∧ p_success (doIsAbleToProxy p1 (answering 301 "p1.getiantem.org")).1 = true
  ∧ p_success (doIsAbleToProxy p1 (answering 404 "p1.getiantem.org")).1 = false
  ∧ p_refused (doIsAbleToProxy p1 (answering 404 "p1.getiantem.org")).1 = false.
Proof.
  destruct (doIsAbleToProxy_outcome
              p1 (failing "dial tcp 1.2.3.4:443: connection refused"))
    as (_ & _ & Href).
  destruct (doIsAbleToProxy_outcome p1 (answering 301 "p1.getiantem.org"))
    as (Hacc & _ & _).
  destruct (doIsAbleToProxy_outcome p1 (answering 404 "p1.getiantem.org"))
    as (_ & Hother & _).
  assert (H404 : answered p1 (answering 404 "p1.getiantem.org") 404)
    by (split; vm_compute; reflexivity).
  assert (H301 : answered p1 (answering 301 "p1.getiantem.org") 301)
    by (split; vm_compute; reflexivity).
  destruct (Hother 404 H404 ltac:(discriminate) ltac:(discriminate))
    as (Hs & Hr & _).
  refine (conj (proj2 Href _) (conj (proj2 Hacc _) (conj Hs Hr))).
  - exists "dial tcp 1.2.3.4:443: connection refused".
    split; vm_compute; reflexivity.
  - exists 301. split; [exact H301 | right; reflexivity].
Defined.

(** [register] with and without a deployed distribution, and a run of the
    actor that ends with a secondary record. *)
Lemma secondary_requires_deployed_witness :
  deployed p1_deployed = true
  ∧ (register p1_deployed emptyCloud).1.1 = None
  ∧ inNoCdnRotations (register p1_deployed emptyCloud).1.2
  ∧ noCdnRecord (register p1_deployed emptyCloud).1.2
    = Some {| Id := "nocdn-p1"; Name := "nocdn-p1"; Value := "1.2.3.4" |}
  ∧ deployed p1 = false
  ∧ noCdnRecord (register p1 p1_cloud).1.2 = None
  ∧ ∃ a w rest,
      p1_run = (a, w) :: rest
      ∧ runs (newHost "p1" "1.2.3.4" None) ((a, w) :: rest)
      ∧ noCdnRecord (self a) ≠ None
      ∧ ∃ a0 w0, (a0, w0) ∈ rest ∧ deployed (self a0) = true.
Proof.
  assert (Hrun : ∃ a w rest,
             p1_run = (a, w) :: rest
             ∧ runs (newHost "p1" "1.2.3.4" None) ((a, w) :: rest)
             ∧ noCdnRecord (self a) ≠ None
             ∧ ∃ a0 w0, (a0, w0) ∈ rest ∧ deployed (self a0) = true).
  { assert (Hruns : runs (newHost "p1" "1.2.3.4" None) p1_run)
      by (apply runs_exec, runs_start).
    destruct p1_run as [|[a w] rest] eqn:E; [vm_compute in E; discriminate|].
    assert (Hrec : noCdnRecord (self a) ≠ None).
    { assert (Hhd : noCdnRecord (self (hd (active p1, emptyCloud) p1_run).1) ≠ None)
        by (vm_compute; discriminate).
      now rewrite E in Hhd. }
    destruct (secondary_requires_deployed p1 p1_cloud) as (_ & _ & _ & Hinv).
    exists a, w, rest.
    exact (conj eq_refl (conj Hruns (conj Hrec
             (Hinv "p1" "1.2.3.4" None rest a w Hruns Hrec)))). }
  assert (Hdep : deployed p1_deployed = true) by (vm_compute; reflexivity).
  assert (Hok : (register p1_deployed emptyCloud).1.1 = None)
    by (vm_compute; reflexivity).
  assert (Hnot : deployed p1 = false) by (vm_compute; reflexivity).
  destruct (secondary_requires_deployed p1_deployed emptyCloud)
    as (_ & Hsec & _ & _).
  destruct (secondary_requires_deployed p1 p1_cloud) as (Hgate & _ & _ & _).
  destruct (Hsec Hdep Hok) as (Hin & Hrec).
  destruct (Hgate Hnot) as (_ & Hkeep & _).
  exact (conj Hdep (conj Hok (conj Hin (conj (Hrec eq_refl)
          (conj Hnot (conj Hkeep Hrun)))))).
Defined.

(** The peer "p1" answered with status 301 through a front that reports
    another virtual host. *)
Lemma mismatch_error_not_returned_witness :
  answered p1 (answering 301 "x.getiantem.org") 301
  ∧ reportedHost (isAbleToProxy (fun _ => answering 301 "x.getiantem.org") p1).1.2
    ≠ fullName p1
  ∧ p_err (isAbleToProxy (fun _ => answering 301 "x.getiantem.org") p1).1.1 = None
  ∧ LogError "p1 (1.2.3.4) is reporting an unexpected host x.getiantem.org"
    ∈ (isAbleToProxy (fun _ => answering 301 "x.getiantem.org") p1).2.
Proof.
  assert (Hans : answered p1 (answering 301 "x.getiantem.org") 301)
    by (split; vm_compute; reflexivity).
  assert (Hne : reportedHost
                  (isAbleToProxy (fun _ => answering 301 "x.getiantem.org") p1).1.2
                ≠ fullName p1)
    by (vm_compute; discriminate).
  destruct (mismatch_error_not_returned (fun _ => answering 301 "x.getiantem.org")
                                        p1 301 Hans (or_intror eq_refl) Hne)
    as (_ & _ & Hnil & _ & Hlog).
  exact (conj Hans (conj Hne (conj Hnil Hlog))).
Defined.

(** The rename of a peer that holds only a secondary record. *)
Lemma doReset_without_cdnRecord_witness :
  cdnRecord p1_secondary_only = None
  ∧ noCdnRecord (doReset "p1-new" 7 p1_secondary_only emptyCloud).1
    = Some {| Id := "nocdn-p1"; Name := "nocdn-p1"; Value := "1.2.3.4" |}
  ∧ name (doReset "p1-new" 7 p1_secondary_only emptyCloud).1 = "p1-new"
  ∧ (doReset "p1-new" 7 p1_secondary_only emptyCloud).2 = emptyCloud.
Proof.
  assert (Hnone : cdnRecord p1_secondary_only = None) by reflexivity.
  destruct (doReset_without_cdnRecord "p1-new" 7 p1_secondary_only emptyCloud Hnone)
    as (Heq & Hrec & Hw).
  refine (conj Hnone (conj Hrec (conj _ Hw))).
  rewrite Heq. reflexivity.
Defined.

(** * Further properties of the prober *)

Section ProberLoop.
Context {W : Type} `{!Globals W}.

(** The outcome of an attempt does not depend on the reported host that the
    previous attempt left behind. *)
Lemma doIsAbleToProxy_reported (v : string) (h : host) (n : network) :
  (doIsAbleToProxy (set_reportedHost v h) n).1 = (doIsAbleToProxy h n).1.
Proof.
  unfold doIsAbleToProxy. simpl.
  destruct (DialTimeout n (ip h +:+ ":443")) as [e|]; [reflexivity|].
  destruct (Head n _) as [[e|code] rep]; [reflexivity|].
  now destruct (negb (code =? 200) && negb (code =? 301)).
Qed.

(** An attempt succeeds without refusal and without error, or fails with an
    error. *)
Lemma doIsAbleToProxy_cases (h : host) (n : network) :
  (doIsAbleToProxy h n).1 = (true, false, None)
  ∨ ∃ refused e, (doIsAbleToProxy h n).1 = (false, refused, Some e).
Proof.
  unfold doIsAbleToProxy.
  destruct (DialTimeout n (ip h +:+ ":443")) as [e|]; [right; eauto|].
  destruct (Head n _) as [[e|code] rep]; [right; eauto|].
  destruct (negb (code =? 200) && negb (code =? 301)); [right; eauto | now left].
Qed.

Lemma doIsAbleToProxy_refused (h : host) (n : network) :
  p_refused (doIsAbleToProxy h n).1 = true ->
  ∃ e, DialTimeout n (dialAddr h) = Some e
       ∧ contains e "connection refused" = true
       ∧ doIsAbleToProxy h n = ((false, true, Some (dialError h e)), h).
Proof.
  unfold doIsAbleToProxy, dialError, dialAddr, p_refused.
  destruct (DialTimeout n (ip h +:+ ":443")) as [e|].
  - simpl. intros Hc. exists e. now rewrite Hc.
  - destruct (Head n _) as [[e|code] rep]; [discriminate|].
    now destruct (negb (code =? 200) && negb (code =? 301)).
Qed.

Lemma isAbleToProxy_loop_success (n i : nat) (lastErr : option error)
      (net : nat -> network) (h : host) (log : list logEntry) :
  p_success (isAbleToProxy_loop n i lastErr net h log).1.1 = true ->
  p_refused (isAbleToProxy_loop n i lastErr net h log).1.1 = false
  ∧ p_err (isAbleToProxy_loop n i lastErr net h log).1.1 = None
  ∧ reportedHost (isAbleToProxy_loop n i lastErr net h log).1.2 = fullName h.
Proof.
  revert i lastErr h log.
  induction n as [|n IH]; intros i lastErr h log; [discriminate|].
  cbn [isAbleToProxy_loop].
  destruct (doIsAbleToProxy_host h (net i)) as [v Hv].
  pose proof (doIsAbleToProxy_cases h (net i)) as Hcases.
  destruct (doIsAbleToProxy h (net i)) as [r h1]. simpl in Hv, Hcases. subst h1.
  destruct Hcases as [-> | (refused & e & ->)]; cbn -[fullName String_].
  - change (fullName (set_reportedHost v h)) with (fullName h).
    destruct (String.eqb v (fullName h)) eqn:E; cbn -[fullName]; [|discriminate].
    intros _. apply String.eqb_eq in E. now repeat split.
  - destruct refused; cbn -[fullName]; [discriminate|].
    intros Hs. now apply IH in Hs.
Qed.

(** X1. Whatever the attempt budget, a probe that reports success reports
    no refusal and no error, and the virtual host it leaves in
    [reportedHost] is the host's fully-qualified name. *)
Theorem probe_success_sound (n i : nat) (lastErr : option error)
        (net : nat -> network) (h : host) (log : list logEntry) :
  let r := isAbleToProxy_loop n i lastErr net h log in
  p_success r.1.1 = true ->
  p_refused r.1.1 = false ∧ p_err r.1.1 = None
  ∧ reportedHost r.1.2 = fullName h.
Proof. cbv zeta. apply isAbleToProxy_loop_success. Qed.

Lemma isAbleToProxy_loop_refused (n i : nat) (lastErr : option error)
      (net : nat -> network) (h : host) (log : list logEntry) :
  p_refused (isAbleToProxy_loop n i lastErr net h log).1.1 = true ->
  p_success (isAbleToProxy_loop n i lastErr net h log).1.1 = false
  ∧ ∃ j e, (i <= j < i + n)%nat
           ∧ DialTimeout (net j) (dialAddr h) = Some e
           ∧ contains e "connection refused" = true
           ∧ p_err (isAbleToProxy_loop n i lastErr net h log).1.1
             = Some (dialError h e).
Proof.
  revert i lastErr h log.
  induction n as [|n IH]; intros i lastErr h log; simpl; [discriminate|].
  destruct (doIsAbleToProxy_host h (net i)) as [v Hv].
  pose proof (doIsAbleToProxy_cases h (net i)) as Hcases.
  pose proof (doIsAbleToProxy_refused h (net i)) as Href.
  destruct (doIsAbleToProxy h (net i)) as [r h1]. simpl in Hv, Hcases. subst h1.
  destruct Hcases as [-> | (refused & e & ->)]; simpl.
  - now destruct (negb _).
  - destruct refused; simpl.
    + intros _. split; [reflexivity|].
      destruct (Href eq_refl) as (e0 & Hdial & Hc & Heq).
      injection Heq as -> _.
      exists i, e0. repeat split; auto; lia.
    + intros Hr. apply IH in Hr as (Hs & j & e0 & Hj & Hdial & Hc & Herr).
      split; [exact Hs|]. exists j, e0. repeat split; auto; lia.
Qed.

(** X2. Whatever the attempt budget, a probe that reports a refused
    connection reports no success; it ended on an attempt whose dial to
    [ip:443] failed with an error that says "connection refused", and it
    returns that attempt's error. *)
Theorem probe_refused_sound (n i : nat) (lastErr : option error)
        (net : nat -> network) (h : host) (log : list logEntry) :
  let r := isAbleToProxy_loop n i lastErr net h log in
  p_refused r.1.1 = true ->
  p_success r.1.1 = false
  ∧ ∃ j e, (i <= j < i + n)%nat
           ∧ DialTimeout (net j) (dialAddr h) = Some e
           ∧ contains e "connection refused" = true
           ∧ p_err r.1.1 = Some (dialError h e).
Proof. cbv zeta. apply isAbleToProxy_loop_refused. Qed.

(** An attempt that neither succeeds nor is refused hands over to the next
    one. *)
Lemma isAbleToProxy_loop_undecided (n i : nat) (lastErr : option error)
      (net : nat -> network) (h : host) (log : list logEntry) :
  undecided h (net i) ->
  ∃ e v,
    p_err (doIsAbleToProxy h (net i)).1 = Some e
    ∧ isAbleToProxy_loop (S n) i lastErr net h log
      = isAbleToProxy_loop n (S i) (Some e) net (set_reportedHost v h)
          (log ++ [LogDebug ("Error testing " +:+ String_ h +:+ ": " +:+ e)]).
Proof.
  intros [Hs Hr]. cbn [isAbleToProxy_loop].
  destruct (doIsAbleToProxy_host h (net i)) as [v Hv].
  pose proof (doIsAbleToProxy_cases h (net i)) as Hcases.
  destruct (doIsAbleToProxy h (net i)) as [r h1]. simpl in Hv, Hcases, Hs, Hr.
  subst h1.
  destruct Hcases as [-> | (refused & e & ->)]; [discriminate|].
  unfold p_refused in Hr. simpl in Hr. subst refused.
  exists e, v. split; reflexivity.
Qed.

(** X3. When none of the [S m] attempts of the budget succeeds or is
    refused, the probe reports failure without refusal, returns the error
    of the last attempt, and has logged one line per attempt. *)
Theorem probe_exhausts_budget (m i : nat) (lastErr : option error)
        (net : nat -> network) (h : host) (log : list logEntry) :
  (∀ j, (i <= j <= i + m)%nat -> undecided h (net j)) ->
  let r := isAbleToProxy_loop (S m) i lastErr net h log in
  p_success r.1.1 = false ∧ p_refused r.1.1 = false
  ∧ p_err r.1.1 = p_err (doIsAbleToProxy h (net (i + m)%nat)).1
  ∧ is_Some (p_err r.1.1)
  ∧ length r.2 = (length log + S m)%nat.
Proof.
  cbv zeta. revert i lastErr h log.
  induction m as [|m IH]; intros i lastErr h log Hund.
  - destruct (isAbleToProxy_loop_undecided 0 i lastErr net h log
                (Hund i ltac:(lia))) as (e & v & He & ->).
    replace (i + 0)%nat with i by lia. rewrite He. simpl.
    repeat split; [eexists; reflexivity|].
    rewrite length_app. simpl. lia.
  - destruct (isAbleToProxy_loop_undecided (S m) i lastErr net h log
                (Hund i ltac:(lia))) as (e & v & He & ->).
    match goal with
    | |- context [isAbleToProxy_loop (S m) (S i) ?e0 net ?h0 ?l0] =>
      destruct (IH (S i) e0 h0 l0) as (H1 & H2 & H3 & H4 & H5)
    end.
    { intros j Hj. unfold undecided.
      rewrite doIsAbleToProxy_reported. apply Hund. lia. }
    rewrite doIsAbleToProxy_reported in H3.
    replace (S i + m)%nat with (i + S m)%nat in H3 by lia.
    repeat split; try assumption.
    rewrite H5, length_app. simpl. lia.
Qed.

(** X4. An attempt returns a nil error exactly when it succeeds, and never
    reports success together with a refusal; when the dial fails the
    proxied request is not made: [reportedHost] keeps its value and the
    result does not depend on what the request would have returned. *)
Theorem attempt_error_iff_failure (h : host) (n : network) :
  (p_err (doIsAbleToProxy h n).1 = None <-> p_success (doIsAbleToProxy h n).1 = true)
  ∧ (p_success (doIsAbleToProxy h n).1 = true ->
     p_refused (doIsAbleToProxy h n).1 = false)
  ∧ (∀ e, DialTimeout n (dialAddr h) = Some e ->
          doIsAbleToProxy h n
          = ((false, contains e "connection refused", Some (dialError h e)), h)).
Proof.
  pose proof (doIsAbleToProxy_cases h n) as Hcases.
  split; [|split].
  - destruct Hcases as [-> | (refused & e & ->)]; unfold p_err, p_success; simpl;
      split; intros; try reflexivity; discriminate.
  - destruct Hcases as [-> | (refused & e & ->)]; unfold p_refused, p_success; simpl;
      intros; try reflexivity; discriminate.
  - intros e Hdial. unfold doIsAbleToProxy, dialError, dialAddr in *.
    now rewrite Hdial.
Qed.

(** X5. The probe writes no field of the host but [reportedHost]: the
    name, the address, the DNS records, the distribution, the rotation
    groups and the timestamps are as before. *)
Theorem probe_only_writes_reportedHost (net : nat -> network) (h : host) :
  let h' := (isAbleToProxy net h).1.2 in
  name h' = name h ∧ ip h' = ip h
  ∧ cdnRecord h' = cdnRecord h ∧ noCdnRecord h' = noCdnRecord h
  ∧ cfrDist h' = cfrDist h
  ∧ cdnGroups h' = cdnGroups h ∧ noCdnGroups h' = noCdnGroups h
  ∧ lastSuccess h' = lastSuccess h ∧ lastTest h' = lastTest h.
Proof.
  cbv zeta. destruct (isAbleToProxy_host net h) as [v ->]. now repeat split.
Qed.

End ProberLoop.

(** * Further properties of registration, deregistration and reset *)

Section Shapes.
Context {W : Type} `{!Globals W}.

(** The host after [registerCdnHost] differs from the one before in the
    primary record only, and a record the host holds stops the call. *)
Lemma registerCdnHost_shape (h : host) (w : W) :
  ∃ r1, (registerCdnHost h w).1.2 = set_cdnRecord r1 h
        ∧ ∀ r, cdnRecord h = Some r ->
               r1 = Some r ∧ registerCdnHost h w = (None, h, w).
Proof.
  unfold registerCdnHost.
  destruct (cdnRecord h) as [r|] eqn:Hr.
  - exists (Some r). split; [now rewrite <- Hr, set_cdnRecord_same|].
    intros r' [= <-]. now split.
  - destruct (cflutil_Register (name h) (ip h) w) as [[rec [e|]] w'];
      [destruct (isDuplicateError e)|].
    + exists rec. split; [reflexivity | discriminate].
    + exists None. split; [now rewrite <- Hr, set_cdnRecord_same | discriminate].
    + exists rec. split; [reflexivity | discriminate].
Qed.

Lemma registerNoCdnHost_shape (h : host) (w : W) :
  ∃ r2, (registerNoCdnHost h w).1.2 = set_noCdnRecord r2 h
        ∧ ∀ r, noCdnRecord h = Some r ->
               r2 = Some r ∧ registerNoCdnHost h w = (None, h, w).
Proof.
  unfold registerNoCdnHost.
  destruct (noCdnRecord h) as [r|] eqn:Hr.
  - exists (Some r). split; [now rewrite <- Hr, set_noCdnRecord_same|].
    intros r' [= <-]. now split.
  - destruct (cflutil_Register (noCdnPrefix +:+ name h) (ip h) w)
      as [[rec [e|]] w']; [destruct (isDuplicateError e)|].
    + exists rec. split; [reflexivity | discriminate].
    + exists None. split; [now rewrite <- Hr, set_noCdnRecord_same | discriminate].
    + exists rec. split; [reflexivity | discriminate].
Qed.

Lemma registerCdn_shape (h : host) (w : W) :
  ∃ r1 g1,
    (registerCdn h w).1.2 = set_cdnGroups g1 (set_cdnRecord r1 h)
    ∧ g1.*1 = (cdnGroups h).*1
    ∧ ∀ r, cdnRecord h = Some r ->
           r1 = Some r ∧ (registerCdn h w).2 = w
           ∧ ∀ e, (registerCdn h w).1.1 = Some e ->
                  ∃ e0, isDuplicateError e0 = false
                        ∧ e = "Unable to register rotations: " +:+ e0.
Proof.
  unfold registerCdn.
  destruct (registerCdnHost_shape h w) as (r1 & Hh & Hkeep).
  destruct (registerCdnHost h w) as [[[e|] h1] w1] eqn:E; simpl in Hh; subst h1.
  - exists r1, (cdnGroups h). split; [|split; [reflexivity|]].
    + simpl. now rewrite <- (set_cdnGroups_same (set_cdnRecord r1 h)) at 1.
    + intros r Hr. destruct (Hkeep r Hr) as [_ Heq]. discriminate.
  - destruct (registerToCdnRotations_ok (set_cdnRecord r1 h) w1)
      as (err & gs & -> & Hk & _ & Herr).
    exists r1, gs.
    split; [now destruct err | split; [exact Hk|]].
    intros r Hr. destruct (Hkeep r Hr) as [-> Heq]. injection Heq as _ ->.
    destruct err as [e0|]; simpl; (split; [reflexivity | split; [reflexivity|]]).
    + intros e [= <-]. exists e0. split; [now apply Herr | reflexivity].
    + discriminate.
Qed.

Lemma registerNoCdn_shape (h : host) (w : W) :
  ∃ r2 g2,
    (registerNoCdn h w).1.2 = set_noCdnGroups g2 (set_noCdnRecord r2 h)
    ∧ g2.*1 = (noCdnGroups h).*1
    ∧ ∀ r, noCdnRecord h = Some r ->
           r2 = Some r ∧ (registerNoCdn h w).2 = w
           ∧ ∀ e, (registerNoCdn h w).1.1 = Some e ->
                  ∃ e0, isDuplicateError e0 = false
                        ∧ e = "Unable to register no-CDN rotations: " +:+ e0.
Proof.
  unfold registerNoCdn.
  destruct (registerNoCdnHost_shape h w) as (r2 & Hh & Hkeep).
  destruct (registerNoCdnHost h w) as [[[e|] h1] w1] eqn:E; simpl in Hh; subst h1.
  - exists r2, (noCdnGroups h). split; [|split; [reflexivity|]].
    + simpl. now rewrite <- (set_noCdnGroups_same (set_noCdnRecord r2 h)) at 1.
    + intros r Hr. destruct (Hkeep r Hr) as [_ Heq]. discriminate.
  - destruct (registerToNoCdnRotations_ok (set_noCdnRecord r2 h) w1)
      as (err & gs & -> & Hk & _ & Herr).
    exists r2, gs.
    split; [now destruct err | split; [exact Hk|]].
    intros r Hr. destruct (Hkeep r Hr) as [-> Heq]. injection Heq as _ ->.
    destruct err as [e0|]; simpl; (split; [reflexivity | split; [reflexivity|]]).
    + intros e [= <-]. exists e0. split; [now apply Herr | reflexivity].
    + discriminate.
Qed.

(** [register] writes the two records and the two group maps, nothing
    else, and replaces no record that the host holds. *)
Lemma register_shape (h : host) (w : W) :
  ∃ r1 g1 r2 g2,
    (register h w).1.2
    = set_noCdnGroups g2 (set_noCdnRecord r2 (set_cdnGroups g1 (set_cdnRecord r1 h)))
    ∧ g1.*1 = (cdnGroups h).*1
    ∧ g2.*1 = (noCdnGroups h).*1
    ∧ (∀ r, cdnRecord h = Some r -> r1 = Some r)
    ∧ (∀ r, noCdnRecord h = Some r -> r2 = Some r).
Proof.
  unfold register.
  destruct (registerCdn_shape h w) as (r1 & g1 & Hh & Hk1 & Hkeep1).
  destruct (registerCdn h w) as [[e h1] w1]. simpl in Hh. subst h1.
  assert (Hstay : ∃ r2 g2,
             set_cdnGroups g1 (set_cdnRecord r1 h)
             = set_noCdnGroups g2 (set_noCdnRecord r2
                 (set_cdnGroups g1 (set_cdnRecord r1 h)))
             ∧ g2.*1 = (noCdnGroups h).*1
             ∧ ∀ r, noCdnRecord h = Some r -> r2 = Some r).
  { exists (noCdnRecord h), (noCdnGroups h). now repeat split. }
  assert (Hfin : ∀ x : option error * host * W,
             (∃ r2 g2, x.1.2 = set_noCdnGroups g2 (set_noCdnRecord r2
                                 (set_cdnGroups g1 (set_cdnRecord r1 h)))
                       ∧ g2.*1 = (noCdnGroups h).*1
                       ∧ ∀ r, noCdnRecord h = Some r -> r2 = Some r) ->
             ∃ r1' g1' r2 g2,
               x.1.2 = set_noCdnGroups g2 (set_noCdnRecord r2
                         (set_cdnGroups g1' (set_cdnRecord r1' h)))
               ∧ g1'.*1 = (cdnGroups h).*1
               ∧ g2.*1 = (noCdnGroups h).*1
               ∧ (∀ r, cdnRecord h = Some r -> r1' = Some r)
               ∧ (∀ r, noCdnRecord h = Some r -> r2 = Some r)).
  { intros x (r2 & g2 & Hx & Hk2 & Hkeep2).
    exists r1, g1, r2, g2. repeat split; try assumption.
    intros r Hr. now destruct (Hkeep1 r Hr). }
  destruct e as [e|]; [apply Hfin; exact Hstay|].
  destruct (deployed _); [|apply Hfin; exact Hstay].
  apply Hfin.
  destruct (registerNoCdn_shape (set_cdnGroups g1 (set_cdnRecord r1 h)) w1)
    as (r2 & g2 & Hh2 & Hk2 & Hkeep2).
  exists r2, g2. split; [exact Hh2 | split; [exact Hk2|]].
  intros r Hr. now destruct (Hkeep2 r Hr).
Qed.

(** X6. [register] changes nothing of the host but its two DNS records and
    the membership in its groups: name, address, distribution, timestamps
    and reported host stay, the groups keep their keys, and a record that
    the host holds is never cleared nor replaced. *)
Theorem register_keeps_identity (h : host) (w : W) :
  let h' := (register h w).1.2 in
  (name h' = name h ∧ ip h' = ip h ∧ cfrDist h' = cfrDist h
   ∧ lastSuccess h' = lastSuccess h ∧ lastTest h' = lastTest h
   ∧ reportedHost h' = reportedHost h)
  ∧ (cdnGroups h').*1 = (cdnGroups h).*1
  ∧ (noCdnGroups h').*1 = (noCdnGroups h).*1
  ∧ (∀ r, cdnRecord h = Some r -> cdnRecord h' = Some r)
  ∧ (∀ r, noCdnRecord h = Some r -> noCdnRecord h' = Some r).
Proof.
  cbv zeta.
  destruct (register_shape h w) as (r1 & g1 & r2 & g2 & -> & Hk1 & Hk2 & H1 & H2).
  simpl. repeat split; auto.
Qed.

(** X7. On a host that holds its primary record, and its secondary record
    if the distribution is deployed, [register] makes no create call to
    the DNS provider, whatever state the provider is in, and keeps both
    records; the only error it can return is that of a rotation group
    that is not a duplicate, as "Unable to register rotations: ..." or
    "Unable to register no-CDN rotations: ...". *)
Theorem register_registered_no_call (h : host) (w : W) :
  is_Some (cdnRecord h) ->
  (deployed h = true -> is_Some (noCdnRecord h)) ->
  (register h w).2 = w
  ∧ cdnRecord (register h w).1.2 = cdnRecord h
  ∧ noCdnRecord (register h w).1.2 = noCdnRecord h
  ∧ ∀ e, (register h w).1.1 = Some e ->
         ∃ e0, isDuplicateError e0 = false
               ∧ (e = "Unable to register rotations: " +:+ e0
                  ∨ e = "Unable to register no-CDN rotations: " +:+ e0).
Proof.
  intros [r Hr] Hsec. unfold register.
  destruct (registerCdn_shape h w) as (r1 & g1 & Hh & _ & Hkeep).
  destruct (Hkeep r Hr) as (-> & Hw & Herr).
  destruct (registerCdn h w) as [[e h1] w1]. simpl in *. subst w1 h1.
  destruct e as [e|].
  - simpl. rewrite Hr. repeat split.
    intros e' [= <-]. destruct (Herr e eq_refl) as (e0 & Hd & ->). eauto.
  - change (deployed (set_cdnGroups g1 (set_cdnRecord (Some r) h))) with (deployed h).
    destruct (deployed h) eqn:Hd;
      [|simpl; rewrite Hr; repeat split; discriminate].
    destruct (Hsec eq_refl) as [r' Hr'].
    destruct (registerNoCdn_shape (set_cdnGroups g1 (set_cdnRecord (Some r) h)) w)
      as (r2 & g2 & Hh2 & _ & Hkeep2).
    destruct (Hkeep2 r' Hr') as (-> & Hw2 & Herr2).
    rewrite Hh2, Hw2. simpl. rewrite Hr, Hr'. repeat split.
    intros e He. destruct (Herr2 e He) as (e0 & Hd0 & ->). eauto.
Qed.

End Shapes.

Section MoreShapes.
Context {W : Type} `{!Globals W}.

Lemma doDeregisterCdnHost_shape (h : host) (w : W) :
  (doDeregisterCdnHost h w).1 = h
  ∨ (doDeregisterCdnHost h w).1 = set_cdnRecord None h.
Proof.
  unfold doDeregisterCdnHost.
  destruct (cflutil_DestroyRecord (cdnRecord h) w) as [[e|] w1]; auto.
Qed.

Lemma doDeregisterNoCdnHost_shape (h : host) (w : W) :
  (doDeregisterNoCdnHost h w).1 = h
  ∨ (doDeregisterNoCdnHost h w).1 = set_noCdnRecord None h.
Proof.
  unfold doDeregisterNoCdnHost.
  destruct (cflutil_DestroyRecord (noCdnRecord h) w) as [[e|] w1]; auto.
Qed.

(** Destruction writes the two record fields only, and each keeps its
    value or becomes nil. *)
Lemma deregister_shape (h : host) (w : W) :
  ∃ r1 r2,
    (deregister h w).1
    = deregisterFromRotations (set_noCdnRecord r2 (set_cdnRecord r1 h))
    ∧ (r1 = cdnRecord h ∨ r1 = None)
    ∧ (r2 = noCdnRecord h ∨ r2 = None).
Proof.
  unfold deregister.
  assert (H1 : ∃ r1, (deregisterCdnHost h w).1 = set_cdnRecord r1 h
                     ∧ (r1 = cdnRecord h ∨ r1 = None)).
  { unfold deregisterCdnHost.
    destruct (cdnRecord h) as [r|] eqn:Hr.
    - destruct (isFallback h).
      + exists (Some r). split; [|now left].
        simpl. rewrite <- Hr. symmetry. apply set_cdnRecord_same.
      + destruct (doDeregisterCdnHost_shape h w) as [Heq | Heq]; rewrite Heq.
        * exists (Some r). split; [|now left].
          rewrite <- Hr. symmetry. apply set_cdnRecord_same.
        * exists None. split; [reflexivity | now right].
    - exists None. split; [|now left].
      simpl. rewrite <- Hr. symmetry. apply set_cdnRecord_same. }
  destruct H1 as (r1 & Hh1 & Hr1).
  destruct (deregisterCdnHost h w) as [h1 w1]. simpl in Hh1. subst h1.
  assert (H2 : ∃ r2, (deregisterNoCdnHost (set_cdnRecord r1 h) w1).1
                     = set_noCdnRecord r2 (set_cdnRecord r1 h)
                     ∧ (r2 = noCdnRecord h ∨ r2 = None)).
  { unfold deregisterNoCdnHost.
    change (noCdnRecord (set_cdnRecord r1 h)) with (noCdnRecord h).
    assert (Hsame : ∀ r, noCdnRecord h = r ->
                         set_cdnRecord r1 h = set_noCdnRecord r (set_cdnRecord r1 h)).
    { intros r <-. symmetry. apply (set_noCdnRecord_same (set_cdnRecord r1 h)). }
    destruct (noCdnRecord h) as [r|] eqn:Hr.
    - destruct (isFallback _).
      + exists (Some r). split; [now apply Hsame | now left].
      + destruct (doDeregisterNoCdnHost_shape (set_cdnRecord r1 h) w1)
          as [Heq | Heq]; rewrite Heq.
        * exists (Some r). split; [now apply Hsame | now left].
        * exists None. split; [reflexivity | now right].
    - exists None. split; [now apply Hsame | now left]. }
  destruct H2 as (r2 & Hh2 & Hr2).
  destruct (deregisterNoCdnHost (set_cdnRecord r1 h) w1) as [h2 w2].
  simpl in Hh2. subst h2.
  exists r1, r2. now repeat split.
Qed.

(** X8. [deregister] never calls the provider for a record the host does
    not hold: with no record at all it only leaves the rotation groups.
    In every case it creates no record and keeps name, address,
    distribution, timestamps and reported host. *)
Theorem deregister_without_records (h : host) (w : W) :
  (cdnRecord h = None -> noCdnRecord h = None ->
   deregister h w = (deregisterFromRotations h, w))
  ∧ (cdnRecord h = None -> cdnRecord (deregister h w).1 = None)
  ∧ (noCdnRecord h = None -> noCdnRecord (deregister h w).1 = None)
  ∧ (name (deregister h w).1 = name h ∧ ip (deregister h w).1 = ip h
     ∧ cfrDist (deregister h w).1 = cfrDist h
     ∧ lastSuccess (deregister h w).1 = lastSuccess h
     ∧ lastTest (deregister h w).1 = lastTest h
     ∧ reportedHost (deregister h w).1 = reportedHost h).
Proof.
  split; [|split; [|split]].
  - intros H1 H2. unfold deregister, deregisterCdnHost, deregisterNoCdnHost.
    now rewrite H1, H2.
  - intros H1. destruct (deregister_shape h w) as (r1 & r2 & -> & Hr1 & _).
    simpl. destruct Hr1; congruence.
  - intros H2. destruct (deregister_shape h w) as (r1 & r2 & -> & _ & Hr2).
    simpl. destruct Hr2; congruence.
  - destruct (deregister_shape h w) as (r1 & r2 & -> & _). now repeat split.
Qed.

(** [doReset] writes the name, the two timestamps and, on a rename, the
    two record fields. *)
Lemma doReset_shape (newName : string) (now : Time) (h : host) (w : W) :
  ∃ r1 r2,
    (doReset newName now h w).1
    = set_name newName
        (set_noCdnRecord r2
           (set_cdnRecord r1 (set_lastTest zeroTime (set_lastSuccess now h))))
    ∧ (newName = name h ->
       r1 = cdnRecord h ∧ r2 = noCdnRecord h ∧ (doReset newName now h w).2 = w).
Proof.
  unfold doReset. simpl.
  destruct (String.eqb newName (name h)) eqn:E; simpl.
  - apply String.eqb_eq in E. subst newName.
    exists (cdnRecord h), (noCdnRecord h). now repeat split.
  - apply String.eqb_neq in E.
    destruct (cdnRecord h) as [r|] eqn:Hr.
    + unfold doDeregisterCdnHost. simpl. rewrite Hr.
      destruct (cflutil_DestroyRecord (Some r) w) as [[e1|] w1]; simpl;
        unfold doDeregisterNoCdnHost; simpl;
        destruct (cflutil_DestroyRecord (noCdnRecord h) w1) as [[e2|] w2]; simpl;
        [exists (Some r), (noCdnRecord h) | exists (Some r), None
         | exists None, (noCdnRecord h) | exists None, None];
        (split; [destruct h; simpl in *; subst; reflexivity
                | intros; contradiction]).
    + exists None, (noCdnRecord h).
      split; [destruct h; simpl in *; subst; reflexivity | intros; contradiction].
Qed.

(** X9. After [doReset] the host always bears the given name, its last
    success is the instant of the reset and its last test the zero
    instant, whatever the provider answered; its class now follows the new
    name while address, distribution, reported host and rotation groups
    are those it had. A reset with the current name calls no provider and
    keeps both records. *)
Theorem doReset_adopts_name (newName : string) (now : Time) (h : host) (w : W) :
  let h' := (doReset newName now h w).1 in
  (name h' = newName ∧ lastSuccess h' = now ∧ lastTest h' = zeroTime
   ∧ isFallback h' = isCdnFallback newName)
  ∧ (ip h' = ip h ∧ cfrDist h' = cfrDist h ∧ reportedHost h' = reportedHost h
     ∧ cdnGroups h' = cdnGroups h ∧ noCdnGroups h' = noCdnGroups h)
  ∧ (newName = name h ->
     cdnRecord h' = cdnRecord h ∧ noCdnRecord h' = noCdnRecord h
     ∧ (doReset newName now h w).2 = w).
Proof.
  cbv zeta.
  destruct (doReset_shape newName now h w) as (r1 & r2 & -> & Hsame).
  split; [now repeat split | split; [now repeat split|]].
  intros Hn. destruct (Hsame Hn) as (-> & -> & Hw). now repeat split.
Qed.

(** [doInitCfrDist] writes the distribution only and never drops it. *)
Lemma doInitCfrDist_shape (h : host) (w : W) :
  ∃ d, (doInitCfrDist h w).1 = set_cfrDist d h
       ∧ (is_Some (cfrDist h) -> is_Some d).
Proof.
  unfold doInitCfrDist.
  destruct (cfrDist h) as [d|] eqn:Hd.
  - destruct (String.eqb (Status d) "InProgress").
    + destruct (cfr_RefreshStatus d w) as [d' w']. simpl.
      exists (Some d'). split; [reflexivity | eauto].
    + rewrite Hd. exists (Some d). split; [|eauto].
      simpl. rewrite <- Hd. now destruct h.
  - rewrite Hd.
    destruct (cfr_CreateDistribution _ _ _ w) as [[dist [e|]] w2]; simpl.
    + exists None. split; [|intros [? ?]; discriminate].
      rewrite <- Hd. now destruct h.
    + exists dist. split; [reflexivity | intros [? ?]; discriminate].
Qed.

(** X10. [doInitCfrDist] touches the distribution only. A handle whose
    status is not "InProgress" makes it a no-op without any provider
    call; a handle that exists is never dropped; and when the creation
    fails the handle stays unset, so that a later signal tries again. *)
Theorem doInitCfrDist_handle (h : host) (w : W) :
  let h' := (doInitCfrDist h w).1 in
  (name h' = name h ∧ ip h' = ip h
   ∧ cdnRecord h' = cdnRecord h ∧ noCdnRecord h' = noCdnRecord h
   ∧ cdnGroups h' = cdnGroups h ∧ noCdnGroups h' = noCdnGroups h
   ∧ lastSuccess h' = lastSuccess h ∧ lastTest h' = lastTest h)
  ∧ (∀ d, cfrDist h = Some d -> Status d ≠ "InProgress" ->
          doInitCfrDist h w = (h, w))
  ∧ (is_Some (cfrDist h) -> is_Some (cfrDist h'))
  ∧ (cfrDist h = None ->
     is_Some (cfr_CreateDistribution (firstField "." (name h))
                (noCdnPrefix +:+ name h) "created by peerscanner" w).1.2 ->
     cfrDist h' = None).
Proof.
  cbv zeta. split; [|split; [|split]].
  - destruct (doInitCfrDist_shape h w) as (d & -> & _). now repeat split.
  - intros d Hd Hst. unfold doInitCfrDist. rewrite Hd.
    apply String.eqb_neq in Hst. rewrite Hst. now rewrite Hd.
  - destruct (doInitCfrDist_shape h w) as (d & -> & Hkeep). exact Hkeep.
  - intros Hd Herr. unfold doInitCfrDist. rewrite Hd. rewrite Hd.
    destruct (cfr_CreateDistribution _ _ _ w) as [[dist [e|]] w2]; simpl in *.
    + exact Hd.
    + destruct Herr as [? ?]. discriminate.
Qed.

End MoreShapes.

(** * Further properties of the test cycle and the run loop *)

Section Cycle.
Context {W : Type} `{!Globals W}.

Lemma deregisterFromRotations_keys (h : host) :
  (cdnGroups (deregisterFromRotations h)).*1 = (cdnGroups h).*1
  ∧ (noCdnGroups (deregisterFromRotations h)).*1 = (noCdnGroups h).*1.
Proof. split; apply deregisterGroups_keys. Qed.

(** A test cycle writes the reported host, the two timestamps and whatever
    the registration or the rotation-only deregistration writes. *)
Lemma testCycle_shape (net : nat -> network) (timedOut : bool)
      (tTest tSuccess : Time) (h : host) (w : W) :
  let c := testCycle net timedOut tTest tSuccess h w in
  ∃ v r1 g1 r2 g2,
    c.1.2 = set_noCdnGroups g2 (set_noCdnRecord r2 (set_cdnGroups g1 (set_cdnRecord r1
              (set_lastSuccess (if online c.1.1 then tSuccess else lastSuccess h)
                 (set_lastTest tTest (set_reportedHost v h))))))
    ∧ v = reportedHost (isAbleToProxy net h).1.2
    ∧ g1.*1 = (cdnGroups h).*1
    ∧ g2.*1 = (noCdnGroups h).*1.
Proof.
  cbv zeta. unfold testCycle.
  destruct (isAbleToProxy_host net h) as [v Hv].
  destruct (isAbleToProxy net h) as [[[[on refused] err] h1] log].
  simpl in Hv. subst h1. simpl reportedHost.
  set (s := if timedOut then _ else _).
  destruct (online s) eqn:Hon.
  - destruct (register_shape
                (set_lastSuccess tSuccess (set_lastTest tTest (set_reportedHost v h))) w)
      as (r1 & g1 & r2 & g2 & Hh & Hk1 & Hk2 & _).
    destruct (register _ w) as [[e h3] w3]. simpl in Hh. subst h3. simpl.
    rewrite Hon. exists v, r1, g1, r2, g2. now repeat split.
  - simpl. rewrite Hon.
    destruct (deregisterFromRotations_keys (set_lastTest tTest (set_reportedHost v h)))
      as [Hk1 Hk2].
    exists v, (cdnRecord h),
      (cdnGroups (deregisterFromRotations (set_lastTest tTest (set_reportedHost v h)))),
      (noCdnRecord h),
      (noCdnGroups (deregisterFromRotations (set_lastTest tTest (set_reportedHost v h)))).
    split; [now destruct h | now repeat split].
Qed.

(** X11. A test cycle always records the instant of the test in
    [lastTest]; it moves [lastSuccess] exactly when the status it reports
    is online; and it keeps the name, the address, the distribution and
    the keys of the rotation groups. *)
Theorem testCycle_timestamps (net : nat -> network) (timedOut : bool)
        (tTest tSuccess : Time) (h : host) (w : W) :
  let c := testCycle net timedOut tTest tSuccess h w in
  lastTest c.1.2 = tTest
  ∧ (online c.1.1 = true -> lastSuccess c.1.2 = tSuccess)
  ∧ (online c.1.1 = false -> lastSuccess c.1.2 = lastSuccess h)
  ∧ name c.1.2 = name h ∧ ip c.1.2 = ip h ∧ cfrDist c.1.2 = cfrDist h
  ∧ (cdnGroups c.1.2).*1 = (cdnGroups h).*1
  ∧ (noCdnGroups c.1.2).*1 = (noCdnGroups h).*1.
Proof.
  cbv zeta.
  destruct (testCycle_shape net timedOut tTest tSuccess h w)
    as (v & r1 & g1 & r2 & g2 & Hh & _ & Hk1 & Hk2).
  rewrite Hh. simpl.
  repeat split; try assumption; intros ->; reflexivity.
Qed.

(** X12. The status of a test cycle is never online and refused at once.
    A cycle that [withtimeout.Do] gave up on reports offline and not
    refused whatever the probe found; a cycle that reports online was not
    given up on and leaves in [reportedHost] the host's fully-qualified
    name. *)
Theorem testCycle_status (net : nat -> network) (timedOut : bool)
        (tTest tSuccess : Time) (h : host) (w : W) :
  let c := testCycle net timedOut tTest tSuccess h w in
  (timedOut = true -> c.1.1 = {| online := false; connectionRefused := false |})
  ∧ (online c.1.1 = true ->
     timedOut = false ∧ connectionRefused c.1.1 = false
     ∧ reportedHost c.1.2 = fullName c.1.2)
  ∧ (connectionRefused c.1.1 = true -> online c.1.1 = false).
Proof.
  cbv zeta.
  destruct (testCycle_shape net timedOut tTest tSuccess h w)
    as (v & r1 & g1 & r2 & g2 & Hh & Hv & _).
  rewrite Hh. clear Hh. unfold fullName. simpl name. simpl reportedHost.
  fold (fullName h). subst v.
  pose proof (isAbleToProxy_loop_success proxyAttempts 0 None net h []) as Hsucc.
  fold (isAbleToProxy net h) in Hsucc.
  unfold testCycle.
  destruct (isAbleToProxy net h) as [[[[on refused] err] h1] log].
  unfold p_success, p_refused in Hsucc. simpl in Hsucc. simpl reportedHost.
  assert (Hst : ∀ s h2 w2 (x : status * host * W),
             x = (if online s then
                    let '(_, h3, w3) := register h2 w2 in (s, h3, w3)
                  else (s, deregisterFromRotations (set_lastTest tTest h1), w)) ->
             x.1.1 = s).
  { intros s h2 w2 x ->. destruct (online s); [|reflexivity].
    now destruct (register h2 w2) as [[? ?] ?]. }
  rewrite (Hst _ _ _ _ eq_refl).
  destruct timedOut; simpl.
  - repeat split; discriminate.
  - split; [discriminate|]. split.
    + intros ->. destruct (Hsucc eq_refl) as (-> & _ & ->). now repeat split.
    + intros ->. destruct on; [|reflexivity].
      destruct (Hsucc eq_refl) as (Hr & _). discriminate.
Qed.

(** X13. While the actor is paused an unregister signal changes nothing,
    no timer and no distribution signal is received, and a reset is the
    way out: it returns the actor to [Active] under the given name, with
    the last test at the zero instant, so that a test is due at once. *)
Theorem paused_waits_for_reset (a : actor) (w : W) :
  mode a = Paused ->
  step EvUnregister a w = Some (a, None, w)
  ∧ step EvInitCfr a w = None
  ∧ step EvPauseTimer a w = None
  ∧ (∀ net timedOut tTest tSuccess,
        step (EvPeriodTimer net timedOut tTest tSuccess) a w = None)
  ∧ ∀ newName now,
      ∃ h' w',
        step (EvReset newName now) a w
        = Some ({| self := h'; mode := Active; checkImmediately := true |}, None, w')
        ∧ name h' = newName ∧ lastTest h' = zeroTime ∧ lastSuccess h' = now.
Proof.
  intros Hm. unfold step. rewrite Hm. repeat split.
  intros newName now.
  destruct (doReset_shape newName now (self a) w) as (r1 & r2 & Hh & _).
  destruct (doReset newName now (self a) w) as [h' w']. simpl in Hh.
  exists h', w'. split; [reflexivity|]. now rewrite Hh.
Qed.

(** X14. An active actor receives every event. Its mode changes to
    [Paused] exactly on the pause deadline and on an unregister signal,
    and back to [Active] only on a reset; a status is reported exactly on
    the turns of the rate-limit timer. *)
Theorem mode_transitions (e : event) (a : actor) (w : W) :
  (mode a = Active -> is_Some (step e a w))
  ∧ ∀ a' s w', step e a w = Some (a', s, w') ->
      (mode a = Active ->
       (mode a' = Paused <-> e = EvPauseTimer ∨ e = EvUnregister))
      ∧ (mode a = Paused -> mode a' = Active ->
         ∃ newName now, e = EvReset newName now)
      ∧ (is_Some s <->
         ∃ net timedOut tTest tSuccess, e = EvPeriodTimer net timedOut tTest tSuccess).
Proof.
  unfold step, pauseEntry. split.
  - intros ->.
    destruct e as [newName now| | | |net timedOut tTest tSuccess].
    + destruct (doReset _ _ _ _). eexists; reflexivity.
    + destruct (deregister _ _). eexists; reflexivity.
    + destruct (doInitCfrDist _ _). eexists; reflexivity.
    + destruct (deregister _ _). eexists; reflexivity.
    + destruct (testCycle _ _ _ _ _ _) as [[? ?] ?]. eexists; reflexivity.
  - intros a' s w'.
    destruct (mode a) eqn:Hm,
             e as [newName now| | | |net timedOut tTest tSuccess];
      try discriminate;
      try destruct (doReset _ _ _ _) as [? ?];
      try destruct (deregister _ _) as [? ?];
      try destruct (doInitCfrDist _ _) as [? ?];
      try destruct (testCycle _ _ _ _ _ _) as [[? ?] ?];
      intros [= <- <- <-]; simpl;
      (split; [intros Hact;
               first [ discriminate Hact
                     | split;
                       [ intros Hp; try discriminate Hp; auto
                       | intros [Hp | Hp]; try discriminate Hp; reflexivity ] ]
              | split;
                 [ intros Hp; try discriminate Hp; intros Hq;
                   try (rewrite Hm in Hq; discriminate Hq); eauto
                 | split;
                    [ intros [? Hp]; try discriminate Hp; eauto
                    | intros (? & ? & ? & ? & Hp); try discriminate Hp;
                      eexists; reflexivity ] ] ]).
Qed.

End Cycle.

Section RunInvariants.
Context {W : Type} `{!Globals W}.

(** The address and the keys of the two group maps. *)
Lemma step_identity (e : event) (a a' : actor) (s : option status) (w w' : W) :
  step e a w = Some (a', s, w') ->
  ip (self a') = ip (self a)
  ∧ (cdnGroups (self a')).*1 = (cdnGroups (self a)).*1
  ∧ (noCdnGroups (self a')).*1 = (noCdnGroups (self a)).*1.
Proof.
  unfold step, pauseEntry.
  assert (Hreset : ∀ newName now,
             ip (doReset newName now (self a) w).1 = ip (self a)
             ∧ (cdnGroups (doReset newName now (self a) w).1).*1
               = (cdnGroups (self a)).*1
             ∧ (noCdnGroups (doReset newName now (self a) w).1).*1
               = (noCdnGroups (self a)).*1).
  { intros newName now.
    destruct (doReset_shape newName now (self a) w) as (r1 & r2 & -> & _).
    now repeat split. }
  assert (Hpause : ip (deregister (self a) w).1 = ip (self a)
                   ∧ (cdnGroups (deregister (self a) w).1).*1
                     = (cdnGroups (self a)).*1
                   ∧ (noCdnGroups (deregister (self a) w).1).*1
                     = (noCdnGroups (self a)).*1).
  { destruct (deregister_shape (self a) w) as (r1 & r2 & -> & _).
    destruct (deregisterFromRotations_keys
                (set_noCdnRecord r2 (set_cdnRecord r1 (self a)))) as [-> ->].
    now repeat split. }
  destruct (mode a), e as [newName now| | | |net timedOut tTest tSuccess];
    try discriminate.
  - specialize (Hreset newName now).
    destruct (doReset newName now (self a) w) as [h1 w1].
    now intros [= <- _ _].
  - destruct (deregister (self a) w) as [h1 w1]. now intros [= <- _ _].
  - destruct (doInitCfrDist_shape (self a) w) as (d & Hh & _).
    destruct (doInitCfrDist (self a) w) as [h1 w1]. simpl in Hh. subst h1.
    now intros [= <- _ _].
  - destruct (deregister (self a) w) as [h1 w1]. now intros [= <- _ _].
  - destruct (testCycle_shape net timedOut tTest tSuccess (self a) w)
      as (v & r1 & g1 & r2 & g2 & Hh & _ & Hk1 & Hk2).
    destruct (testCycle net timedOut tTest tSuccess (self a) w) as [[s1 h1] w1].
    simpl in Hh. subst h1. intros [= <- _ _]. simpl. now repeat split.
  - specialize (Hreset newName now).
    destruct (doReset newName now (self a) w) as [h1 w1].
    now intros [= <- _ _].
  - now intros [= <- _ _].
Qed.

(** X15. In every run of the actor from [newHost name ip record], every
    state has the address [ip] and the rotation groups, primary and
    secondary, that [newHost] assigned from the first name: no turn adds,
    drops or renames a group, not even a reset that changes the class of
    the name. *)
Theorem runs_keep_address_and_groups
        (n i : string) (r : option CfRecord) (tr : list (actor * W)) :
  runs (newHost n i r) tr ->
  ∀ a w, (a, w) ∈ tr ->
    ip (self a) = i
    ∧ (cdnGroups (self a)).*1 = (cdnGroups (newHost n i r)).*1
    ∧ (noCdnGroups (self a)).*1 = (noCdnGroups (newHost n i r)).*1.
Proof.
  induction 1 as [now now' w0 | e a w a' s w' tr Hruns IH Hstep]; intros b wb Hin.
  - apply list_elem_of_singleton in Hin. injection Hin as -> ->. now repeat split.
  - apply elem_of_cons in Hin as [Heq | Hin]; [|exact (IH b wb Hin)].
    injection Heq as -> ->.
    destruct (step_identity e a a' s w w' Hstep) as (-> & -> & ->).
    apply (IH a w). now left.
Qed.

(** X16. What a turn of the actor can change: the name only on a reset,
    the distribution only on the distribution signal (and a handle that
    exists is never dropped), and [lastSuccess] only on a reset or on a
    test whose status is online. *)
Theorem step_changes (e : event) (a a' : actor) (s : option status) (w w' : W) :
  step e a w = Some (a', s, w') ->
  ((∀ newName now, e ≠ EvReset newName now) -> name (self a') = name (self a))
  ∧ (e ≠ EvInitCfr -> cfrDist (self a') = cfrDist (self a))
  ∧ (is_Some (cfrDist (self a)) -> is_Some (cfrDist (self a')))
  ∧ ((∀ newName now, e ≠ EvReset newName now) ->
     (∀ st, s = Some st -> online st = false) ->
     lastSuccess (self a') = lastSuccess (self a)).
Proof.
  unfold step, pauseEntry.
  assert (Hpause : name (deregister (self a) w).1 = name (self a)
                   ∧ cfrDist (deregister (self a) w).1 = cfrDist (self a)
                   ∧ lastSuccess (deregister (self a) w).1 = lastSuccess (self a)).
  { destruct (deregister_shape (self a) w) as (r1 & r2 & -> & _). now repeat split. }
  assert (Hreset : ∀ newName now,
             cfrDist (doReset newName now (self a) w).1 = cfrDist (self a)).
  { intros newName now.
    now destruct (doReset_shape newName now (self a) w) as (r1 & r2 & -> & _). }
  destruct (mode a), e as [newName now| | | |net timedOut tTest tSuccess];
    try discriminate.
  - specialize (Hreset newName now).
    destruct (doReset newName now (self a) w) as [h1 w1].
    intros [= <- _ _]. simpl in *.
    repeat split; try congruence; intros Hne; now contradiction (Hne newName now).
  - destruct (deregister (self a) w) as [h1 w1]. intros [= <- _ _]. simpl in *.
    destruct Hpause as (-> & -> & ->). now repeat split.
  - destruct (doInitCfrDist_shape (self a) w) as (d & Hh & Hkeep).
    destruct (doInitCfrDist (self a) w) as [h1 w1]. simpl in Hh. subst h1.
    intros [= <- _ _]. simpl. repeat split; auto. intros Hne. now contradiction Hne.
  - destruct (deregister (self a) w) as [h1 w1]. intros [= <- _ _]. simpl in *.
    destruct Hpause as (-> & -> & ->). now repeat split.
  - destruct (testCycle_shape net timedOut tTest tSuccess (self a) w)
      as (v & r1 & g1 & r2 & g2 & Hh & _).
    destruct (testCycle net timedOut tTest tSuccess (self a) w) as [[s1 h1] w1].
    simpl in Hh. subst h1. intros [= <- <- _]. simpl.
    repeat split; auto. intros _ Hoff. now rewrite (Hoff s1 eq_refl).
  - specialize (Hreset newName now).
    destruct (doReset newName now (self a) w) as [h1 w1].
    intros [= <- _ _]. simpl in *.
    repeat split; try congruence; intros Hne; now contradiction (Hne newName now).
  - intros [= <- _ _]. now repeat split.
Qed.

(** X17. In every run of the actor a paused host is a member of none of
    its rotation groups. *)
Theorem paused_out_of_rotation (h0 : host) (tr : list (actor * W)) :
  runs h0 tr ->
  ∀ a w, (a, w) ∈ tr -> mode a = Paused ->
    ∀ g, g ∈ rotations (self a) -> ¬ inRotation (self a) g.
Proof.
  induction 1 as [now now' w0 | e a w a' s w' tr Hruns IH Hstep]; intros b wb Hin.
  - apply list_elem_of_singleton in Hin. injection Hin as -> ->. discriminate.
  - apply elem_of_cons in Hin as [Heq | Hin]; [|exact (IH b wb Hin)].
    injection Heq as -> ->. revert Hstep. unfold step, pauseEntry.
    pose proof (deregister_effects (self a) w) as (Hrot & _).
    destruct (mode a) eqn:Hm,
             e as [newName now| | | |net timedOut tTest tSuccess];
      try discriminate;
      try destruct (doReset _ _ _ _) as [? ?];
      try destruct (deregister _ _) as [? ?];
      try destruct (doInitCfrDist _ _) as [? ?];
      try destruct (testCycle _ _ _ _ _ _) as [[? ?] ?];
      intros [= <- _ _]; simpl; try discriminate; try (intros _; exact Hrot).
    intros _. apply (IH a w); [now left | exact Hm].
Qed.

End RunInvariants.

(** * Errors that count as duplicates *)

Lemma append_cons (c : ascii) (s t : string) :
  String c s +:+ t = String c (s +:+ t).
Proof. reflexivity. Qed.

Lemma prefix_app (p s : string) :
  String.prefix p s = true <-> ∃ post, s = p +:+ post.
Proof.
  revert s. induction p as [|c p IH]; intros s.
  - split; [intros _; now exists s | now destruct s].
  - destruct s as [|c' s]; simpl;
      [split; [discriminate | intros [post Hp]; discriminate]|].
    destruct (Ascii.ascii_dec c c') as [-> | Hne].
    + rewrite IH. split; intros [post Hp]; exists post.
      * now rewrite append_cons, Hp.
      * rewrite append_cons in Hp. congruence.
    + split; [discriminate | intros [post Hp]].
      rewrite append_cons in Hp. congruence.
Qed.

Lemma contains_app (s substr : string) :
  contains s substr = true <-> ∃ pre post, s = pre +:+ substr +:+ post.
Proof.
  induction s as [|c s IH]; cbn [contains].
  - destruct (String.prefix substr "") eqn:Hp.
    + split; [intros _ | reflexivity].
      apply prefix_app in Hp as [post Hp]. exists "", post. exact Hp.
    + split; [discriminate|]. intros (pre & post & Heq).
      destruct pre; [|discriminate].
      assert (String.prefix substr "" = true)
        by (apply prefix_app; exists post; exact Heq).
      congruence.
  - destruct (String.prefix substr (String c s)) eqn:Hp.
    + split; [intros _ | reflexivity].
      apply prefix_app in Hp as [post Hp]. exists "", post. exact Hp.
    + rewrite IH. split.
      * intros (pre & post & ->). exists (String c pre), post. reflexivity.
      * intros (pre & post & Heq). destruct pre as [|c' pre].
        -- assert (String.prefix substr (String c s) = true)
             by (apply prefix_app; exists post; exact Heq).
           congruence.
        -- rewrite append_cons in Heq. injection Heq as -> ->. now exists pre, post.
Qed.

(** X18. [isDuplicateError] holds exactly for the errors whose text has
    "The record already exists." somewhere inside, so also for such an
    error wrapped in a longer message. *)
Theorem isDuplicateError_anywhere (err : error) :
  isDuplicateError err = true
  <-> ∃ pre post, err = pre +:+ "The record already exists." +:+ post.
Proof. apply contains_app. Qed.

(** * Errors of the registration *)

Section RegistrationErrors.
Context {W : Type} `{!Globals W}.

(** X19. When the provider answers the create call for the primary name
    with an error that is not a duplicate, [register] returns it as
    "Unable to register host: ..." and leaves the host exactly as it was:
    no record is stored and no rotation is joined. When the primary step
    succeeds and the create call for the secondary name fails that way,
    [register] returns "Unable to register no-CDN entry for host: ..." and
    keeps what the primary step did. *)
Theorem register_surfaces_provider_error (h : host) (w w' : W)
        (rec : option CfRecord) (e : error) :
  isDuplicateError e = false ->
  (cdnRecord h = None ->
   cflutil_Register (name h) (ip h) w = ((rec, Some e), w') ->
   register h w = (Some ("Unable to register host: " +:+ e), h, w'))
  ∧ (deployed h = true -> (registerCdn h w).1.1 = None -> noCdnRecord h = None ->
     cflutil_Register (noCdnPrefix +:+ name h) (ip h) (registerCdn h w).2
     = ((rec, Some e), w') ->
     register h w
     = (Some ("Unable to register no-CDN entry for host: " +:+ e),
        (registerCdn h w).1.2, w')).
Proof.
  intros Hdup. split.
  - intros Hrec Hreg. unfold register, registerCdn, registerCdnHost.
    now rewrite Hrec, Hreg, Hdup.
  - intros Hd Hprim Hrec Hreg.
    rewrite (register_deployed h w Hd Hprim).
    destruct (registerCdn_frame h w) as (Hn & Hi & _ & Hr & _).
    unfold registerNoCdn, registerNoCdnHost.
    now rewrite Hr, Hrec, Hn, Hi, Hreg, Hdup.
Qed.

End RegistrationErrors.

(** * The further properties on concrete hosts *)

(** A probe of "p1" through its own front. *)
Lemma probe_success_sound_witness :
  p_success (isAbleToProxy_loop 1 0 None (fun _ => answering 200 "p1.getiantem.org")
                                p1 []).1.1 = true
  ∧ reportedHost (isAbleToProxy_loop 1 0 None
                    (fun _ => answering 200 "p1.getiantem.org") p1 []).1.2
    = "p1.getiantem.org".
Proof.
  assert (Hs : p_success (isAbleToProxy_loop 1 0 None
                 (fun _ => answering 200 "p1.getiantem.org") p1 []).1.1 = true)
    by (vm_compute; reflexivity).
  destruct (probe_success_sound 1 0 None (fun _ => answering 200 "p1.getiantem.org")
                                p1 [] Hs) as (_ & _ & Hrep).
  exact (conj Hs Hrep).
Defined.

(** A probe with two attempts, the second of which is refused. *)
Lemma probe_refused_sound_witness :
  p_refused (isAbleToProxy_loop 2 0 None refusedLater p1 []).1.1 = true
  ∧ p_success (isAbleToProxy_loop 2 0 None refusedLater p1 []).1.1 = false.
Proof.
  assert (Hr : p_refused (isAbleToProxy_loop 2 0 None refusedLater p1 []).1.1 = true)
    by (vm_compute; reflexivity).
  destruct (probe_refused_sound 2 0 None refusedLater p1 [] Hr) as (Hs & _).
  exact (conj Hr Hs).
Defined.

(** A probe with two attempts that are both answered with status 404. *)
Lemma probe_exhausts_budget_witness :
  (∀ j, (0 <= j <= 0 + 1)%nat ->
        undecided p1 ((fun _ => answering 404 "p1.getiantem.org") j))
  ∧ p_success (isAbleToProxy_loop 2 0 None
                 (fun _ => answering 404 "p1.getiantem.org") p1 []).1.1 = false
  ∧ length (isAbleToProxy_loop 2 0 None
              (fun _ => answering 404 "p1.getiantem.org") p1 []).2 = 2%nat.
Proof.
  assert (Hund : ∀ j, (0 <= j <= 0 + 1)%nat ->
                      undecided p1 ((fun _ => answering 404 "p1.getiantem.org") j))
    by (intros j _; split; vm_compute; reflexivity).
  destruct (probe_exhausts_budget 1 0 None (fun _ => answering 404 "p1.getiantem.org")
                                  p1 [] Hund) as (Hs & _ & _ & _ & Hlen).
  exact (conj Hund (conj Hs Hlen)).
Defined.

(** An attempt whose dial times out. *)
Lemma attempt_error_iff_failure_witness :
  DialTimeout (failing "i/o timeout") (dialAddr p1) = Some "i/o timeout"
  ∧ doIsAbleToProxy p1 (failing "i/o timeout")
    = ((false, false, Some "Unable to connect to 1.2.3.4:443: i/o timeout"), p1)
  ∧ p_err (doIsAbleToProxy p1 (answering 200 "p1.getiantem.org")).1 = None.
Proof.
  assert (Hdial : DialTimeout (failing "i/o timeout") (dialAddr p1) = Some "i/o timeout")
    by reflexivity.
  destruct (attempt_error_iff_failure p1 (failing "i/o timeout")) as (_ & _ & Hfail).
  destruct (attempt_error_iff_failure p1 (answering 200 "p1.getiantem.org"))
    as (Hiff & _ & _).
  refine (conj Hdial (conj _ (proj2 Hiff _))).
  - rewrite (Hfail _ Hdial). vm_compute. reflexivity.
  - vm_compute. reflexivity.
Defined.

(** A second registration of "p1" keeps the record of the first. *)
Lemma register_keeps_identity_witness :
  cdnRecord p1 = Some {| Id := "p1"; Name := "p1"; Value := "1.2.3.4" |}
  ∧ cdnRecord (register p1 p1_cloud).1.2
    = Some {| Id := "p1"; Name := "p1"; Value := "1.2.3.4" |}.
Proof.
  assert (Hrec : cdnRecord p1 = Some {| Id := "p1"; Name := "p1"; Value := "1.2.3.4" |})
    by (vm_compute; reflexivity).
  destruct (register_keeps_identity p1 p1_cloud) as (_ & _ & _ & Hkeep & _).
  exact (conj Hrec (Hkeep _ Hrec)).
Defined.

(** The peer "p1", registered but out of its rotations after a failed
    test, registers again while the provider is down. *)
Lemma register_registered_no_call_witness :
  is_Some (cdnRecord p1_out)
  ∧ (register p1_out downCloud).2 = downCloud
  ∧ cdnRecord (register p1_out downCloud).1.2 = cdnRecord p1_out
  ∧ (register p1_out downCloud).1.1
    = Some "Unable to register rotations: cloudflare: service unavailable".
Proof.
  assert (Hrec : is_Some (cdnRecord p1_out)) by (vm_compute; eexists; reflexivity).
  assert (Hsec : deployed p1_out = true -> is_Some (noCdnRecord p1_out))
    by (intros Hd; vm_compute in Hd; discriminate).
  destruct (register_registered_no_call p1_out downCloud Hrec Hsec)
    as (Hw & Hkeep & _ & _).
  refine (conj Hrec (conj Hw (conj Hkeep _))).
  vm_compute. reflexivity.
Defined.

(** A new peer without records is deregistered while the provider is down. *)
Lemma deregister_without_records_witness :
  cdnRecord (newHost "p1" "1.2.3.4" None) = None
  ∧ noCdnRecord (newHost "p1" "1.2.3.4" None) = None
  ∧ (deregister (newHost "p1" "1.2.3.4" None) downCloud).2 = downCloud.
Proof.
  destruct (deregister_without_records (newHost "p1" "1.2.3.4" None) downCloud)
    as (Hnone & _).
  refine (conj eq_refl (conj eq_refl _)).
  now rewrite (Hnone eq_refl eq_refl).
Defined.

(** The registered peer "p1" reports in under its own name. *)
Lemma doReset_adopts_name_witness :
  "p1" = name p1
  ∧ cdnRecord (doReset "p1" 7 p1 p1_cloud).1 = cdnRecord p1
  ∧ (doReset "p1" 7 p1 p1_cloud).2 = p1_cloud
  ∧ lastTest (doReset "p1" 7 p1 p1_cloud).1 = zeroTime.
Proof.
  assert (Hn : "p1" = name p1) by (vm_compute; reflexivity).
  destruct (doReset_adopts_name "p1" 7 p1 p1_cloud) as ((_ & _ & Ht & _) & _ & Hsame).
  destruct (Hsame Hn) as (Hc & _ & Hw).
  exact (conj Hn (conj Hc (conj Hw Ht))).
Defined.

(** A deployed distribution is left alone; a creation that fails leaves the
    handle unset. *)
Lemma doInitCfrDist_handle_witness :
  doInitCfrDist p1_deployed downCloud = (p1_deployed, downCloud)
  ∧ cfrDist (doInitCfrDist (newHost "p1" "1.2.3.4" None) downCloud).1 = None.
Proof.
  destruct (doInitCfrDist_handle p1_deployed downCloud) as (_ & Hnoop & _).
  destruct (doInitCfrDist_handle (newHost "p1" "1.2.3.4" None) downCloud)
    as (_ & _ & _ & Hfail).
  split.
  - apply (Hnoop {| InstanceId := "p1"; Status := "Deployed" |});
      [reflexivity | discriminate].
  - apply Hfail; [reflexivity | vm_compute; eexists; reflexivity].
Defined.

(** A successful and a failed test of "p1". *)
Lemma testCycle_timestamps_witness :
  online (testCycle (fun _ => answering 200 "p1.getiantem.org") false 8 9 p1 p1_cloud).1.1
  = true
  ∧ lastSuccess (testCycle (fun _ => answering 200 "p1.getiantem.org")
                           false 8 9 p1 p1_cloud).1.2 = 9
  ∧ online (testCycle (fun _ => failing "i/o timeout") false 8 9 p1 p1_cloud).1.1
    = false
  ∧ lastSuccess (testCycle (fun _ => failing "i/o timeout") false 8 9 p1 p1_cloud).1.2
    = lastSuccess p1.
Proof.
  assert (Hon : online (testCycle (fun _ => answering 200 "p1.getiantem.org")
                                  false 8 9 p1 p1_cloud).1.1 = true)
    by (vm_compute; reflexivity).
  assert (Hoff : online (testCycle (fun _ => failing "i/o timeout")
                                   false 8 9 p1 p1_cloud).1.1 = false)
    by (vm_compute; reflexivity).
  destruct (testCycle_timestamps (fun _ => answering 200 "p1.getiantem.org")
                                 false 8 9 p1 p1_cloud) as (_ & Hmove & _).
  destruct (testCycle_timestamps (fun _ => failing "i/o timeout")
                                 false 8 9 p1 p1_cloud) as (_ & _ & Hstay & _).
  exact (conj Hon (conj (Hmove Hon) (conj Hoff (Hstay Hoff)))).
Defined.

(** A test of "p1" that is given up on although the network answers. *)
Lemma testCycle_status_witness :
  (testCycle (fun _ => answering 200 "p1.getiantem.org") true 8 9 p1 p1_cloud).1.1
  = {| online := false; connectionRefused := false |}.
Proof.
  destruct (testCycle_status (fun _ => answering 200 "p1.getiantem.org")
                             true 8 9 p1 p1_cloud) as (Hto & _).
  exact (Hto eq_refl).
Defined.

(** The paused peer "p1" ignores an unregister signal and resumes on a
    reset. *)
Lemma paused_waits_for_reset_witness :
  mode (paused p1) = Paused
  ∧ step EvUnregister (paused p1) p1_cloud = Some (paused p1, None, p1_cloud)
  ∧ ∃ h' w',
      step (EvReset "p1" 7) (paused p1) p1_cloud
      = Some ({| self := h'; mode := Active; checkImmediately := true |}, None, w')
      ∧ lastTest h' = zeroTime.
Proof.
  destruct (paused_waits_for_reset (paused p1) p1_cloud eq_refl)
    as (Hun & _ & _ & _ & Hreset).
  destruct (Hreset "p1" 7) as (h' & w' & Hstep & _ & Ht & _).
  refine (conj eq_refl (conj Hun _)).
  exists h', w'. exact (conj Hstep Ht).
Defined.

(** The pause deadline pauses the active peer "p1". *)
Lemma mode_transitions_witness :
  ∃ a' s w',
    step EvPauseTimer (active p1) p1_cloud = Some (a', s, w')
    ∧ mode a' = Paused.
Proof.
  destruct (mode_transitions EvPauseTimer (active p1) p1_cloud) as (Hrecv & Hmode).
  destruct (Hrecv eq_refl) as [[[a' s] w'] Hstep].
  destruct (Hmode a' s w' Hstep) as (Hpause & _).
  exists a', s, w'. split; [exact Hstep|].
  apply (Hpause eq_refl). now left.
Defined.

(** The states of a run of "p1" keep its address. *)
Lemma runs_keep_address_and_groups_witness :
  runs (newHost "p1" "1.2.3.4" None) p1_run
  ∧ ∀ a w, (a, w) ∈ p1_run -> ip (self a) = "1.2.3.4".
Proof.
  assert (Hruns : runs (newHost "p1" "1.2.3.4" None) p1_run)
    by (apply runs_exec, runs_start).
  split; [exact Hruns|].
  intros a w Hin.
  now destruct (runs_keep_address_and_groups "p1" "1.2.3.4" None p1_run Hruns a w Hin).
Defined.

(** A failed test of "p1" keeps its name, distribution and last success. *)
Lemma step_changes_witness :
  ∃ a' s w',
    step (EvPeriodTimer (fun _ => failing "i/o timeout") false 8 9) (active p1) p1_cloud
    = Some (a', s, w')
    ∧ name (self a') = name p1
    ∧ lastSuccess (self a') = lastSuccess p1.
Proof.
  destruct (step (EvPeriodTimer (fun _ => failing "i/o timeout") false 8 9)
                 (active p1) p1_cloud) as [[[a' s] w']|] eqn:E;
    [|vm_compute in E; discriminate].
  destruct (step_changes _ _ a' s _ w' E) as (Hname & _ & _ & Hlast).
  exists a', s, w'. split; [reflexivity|]. split.
  - apply Hname. discriminate.
  - apply Hlast; [discriminate|].
    intros st ->. vm_compute in E. now injection E as _ <- _.
Defined.

(** After the unregister signal "p1" is paused and out of its rotations. *)
Lemma paused_out_of_rotation_witness :
  runs (newHost "p1" "1.2.3.4" None) p1_unregistered_run
  ∧ ∃ a w rest,
      p1_unregistered_run = (a, w) :: rest
      ∧ mode a = Paused
      ∧ ∀ g, g ∈ rotations (self a) -> ¬ inRotation (self a) g.
Proof.
  assert (Hruns : runs (newHost "p1" "1.2.3.4" None) p1_unregistered_run)
    by (apply runs_exec, runs_start).
  split; [exact Hruns|].
  destruct p1_unregistered_run as [|[a w] rest] eqn:E; [vm_compute in E; discriminate|].
  assert (Hm : mode a = Paused).
  { assert (Hhd : mode (hd (active p1, emptyCloud) p1_unregistered_run).1 = Paused)
      by (vm_compute; reflexivity).
    now rewrite E in Hhd. }
  exists a, w, rest. refine (conj eq_refl (conj Hm _)).
  apply (paused_out_of_rotation _ _ Hruns a w); [now left | exact Hm].
Defined.

(** A duplicate reported inside a longer message. *)
Lemma isDuplicateError_anywhere_witness :
  isDuplicateError "cloudflare: The record already exists. (code 81057)" = true.
Proof.
  apply isDuplicateError_anywhere.
  exists "cloudflare: ", " (code 81057)". reflexivity.
Defined.

(** A new peer with a deployed distribution registers while the provider is
    down. *)
Lemma register_surfaces_provider_error_witness :
  isDuplicateError "cloudflare: service unavailable" = false
  ∧ register p1_deployed downCloud
    = (Some "Unable to register host: cloudflare: service unavailable",
       p1_deployed, downCloud).
Proof.
  assert (Hdup : isDuplicateError "cloudflare: service unavailable" = false)
    by (vm_compute; reflexivity).
  destruct (register_surfaces_provider_error p1_deployed downCloud downCloud None
              "cloudflare: service unavailable" Hdup) as (Hprim & _).
  exact (conj Hdup (Hprim eq_refl eq_refl)).
Defined.
